(** * ef-nuget-models-loader: a shallow embedding and its properties

    The program polls version-check endpoints, picks the highest reported
    model version, and downloads the matching NuGet package unless the
    version is already listed in a history file (the ledger).

    How the program is modelled:
    - Python [str] is [string]; the slices the source takes are written out
      with what Python does when the string is shorter than the slice.
    - A run threads a state (the ledger file, the files written to the
      output folder, the lines printed, the requests made) and ends with a
      value or an exception; [try]/[except] catches the exceptions its
      clauses name and lets the others through.
    - The HTTP client, the JSON decoder, the schema validator and the
      version library are collaborators: the program is written against
      their interfaces, and the statements hold for every behaviour of
      theirs unless they say otherwise.
    - Printed lines are kept without their time stamp. The ledger file can
      be created, read and appended to. The file of a download is opened
      under the name the server gives: the opening can fail, and the name
      can denote the ledger itself; both are the file system's answer, a
      collaborator as well. *)

From Stdlib Require Import List String Ascii Bool Arith NArith Lia.
From Stdlib Require Import Decimal DecimalString DecimalN DecimalFacts.
Import ListNotations.
Open Scope string_scope.

(** ** Python string operations used by the source *)

Module PyStr.

(** [s[-n:]]: the last [n] characters, the whole string when it is shorter. *)
Definition tail (n : nat) (s : string) : string :=
  substring (length s - n) n s.

(** [s[:-n]]: everything but the last [n] characters, empty when [s] is
    shorter ([n > 0]). *)
Definition drop_tail (n : nat) (s : string) : string :=
  substring 0 (length s - n) s.

Definition LF : ascii := ascii_of_nat 10.
Definition CR : ascii := ascii_of_nat 13.
Definition quote : ascii := ascii_of_nat 34.

(** The one-character string [chr c]. *)
Definition chr (c : ascii) : string := String c EmptyString.

(** [str.lower] on ASCII letters. *)
Definition lower_char (c : ascii) : ascii :=
  let n := nat_of_ascii c in
  if ((65 <=? n)%nat && (n <=? 90)%nat)%bool then ascii_of_nat (n + 32) else c.

Fixpoint lower (s : string) : string :=
  match s with
  | EmptyString => EmptyString
  | String c r => String (lower_char c) (lower r)
  end.

(** [s.split(sep)] for a one-character separator: never an empty list. *)
Fixpoint split (sep : ascii) (s : string) : list string :=
  match s with
  | EmptyString => [EmptyString]
  | String c r =>
      if Ascii.eqb c sep then EmptyString :: split sep r
      else match split sep r with
           | [] => [chr c]
           | p :: ps => String c p :: ps
           end
  end.

(** [sep.join(parts)]. *)
Fixpoint join (sep : string) (parts : list string) : string :=
  match parts with
  | [] => EmptyString
  | [p] => p
  | p :: ps => p ++ sep ++ join sep ps
  end.

Fixpoint lstrip (c : ascii) (s : string) : string :=
  match s with
  | EmptyString => EmptyString
  | String a r => if Ascii.eqb a c then lstrip c r else s
  end.

Fixpoint rstrip (c : ascii) (s : string) : string :=
  match s with
  | EmptyString => EmptyString
  | String a r =>
      match rstrip c r with
      | EmptyString => if Ascii.eqb a c then EmptyString else chr a
      | r' => String a r'
      end
  end.

(** [s.strip(c)] for a one-character set. *)
Definition strip (c : ascii) (s : string) : string := rstrip c (lstrip c s).

(** [s] ends with [suffix]. *)
Definition ends_with (suffix s : string) : Prop :=
  exists p, s = p ++ suffix.

(** No line terminator that a text-mode read would recognise. *)
Fixpoint no_line_break (s : string) : Prop :=
  match s with
  | EmptyString => True
  | String c r => c <> LF /\ c <> CR /\ no_line_break r
  end.

(** [s.startswith(p)]. *)
Fixpoint startswith (s p : string) {struct p} : bool :=
  match p with
  | EmptyString => true
  | String a p' =>
      match s with
      | EmptyString => false
      | String b s' => Ascii.eqb a b && startswith s' p'
      end
  end.

(** The character [c] does not occur in [s]. *)
Fixpoint free_of (c : ascii) (s : string) : Prop :=
  match s with
  | EmptyString => True
  | String a r => a <> c /\ free_of c r
  end.

End PyStr.

(** ** Version Comparator: normalisation *)

(** [delete_closing_zero]: drop one closing [".0"]. *)
Definition delete_closing_zero (model_version : string) : string :=
  if String.eqb (PyStr.tail 2 model_version) ".0"
  then PyStr.drop_tail 2 model_version
  else model_version.

(** [add_closing_slash]: add a closing slash unless the last character is one. *)
Definition add_closing_slash (url_path : string) : string :=
  if negb (String.eqb (PyStr.tail 1 url_path) "/")
  then url_path ++ "/"
  else url_path.

(** ** Exceptions and results *)

(** The exceptions the program can meet. *)
Inductive exn : Type :=
| ConnectionError     (* requests: the request itself failed *)
| HTTPError           (* requests: raise_for_status on an error status *)
| JSONDecodeError     (* json.loads *)
| ValidationError     (* jsonschema.validate: the instance is not valid *)
| SchemaError         (* jsonschema.validate: the schema is not valid *)
| KeyError
| IndexError
| TypeError
| InvalidVersion      (* packaging.version.parse *)
| FileNotFoundError
| RecursionError      (* json.loads on a body nested too deep *)
| IsADirectoryError   (* open: the path is a directory *)
| PermissionError.    (* open: the path may not be written *)

Inductive result (A : Type) : Type :=
| Ok (a : A)
| Raise (e : exn).

Arguments Ok {A} a.
Arguments Raise {A} e.

(** ** The [packaging.version] library, as the program uses it

    [parse] builds a version or raises [InvalidVersion] ([None]); versions are
    compared with [<] and printed with [str]. The program is written against
    this interface; [Release] below is the library on dotted numeric
    strings. *)
Class PackagingVersion : Type := {
  Version : Type;
  parse : string -> option Version;
  version_lt : Version -> Version -> bool;
  version_str : Version -> string
}.

Module Release.

(** [int(s)] on a run of ASCII digits. *)
Definition parse_int (s : string) : option N :=
  option_map N.of_uint (NilZero.uint_of_string s).

(** [str(n)]. *)
Definition str_int (n : N) : string :=
  NilZero.string_of_uint (N.to_uint n).

Fixpoint traverse {A B : Type} (f : A -> option B) (l : list A) : option (list B) :=
  match l with
  | [] => Some []
  | x :: r =>
      match f x, traverse f r with
      | Some y, Some ys => Some (y :: ys)
      | _, _ => None
      end
  end.

(** The release segment: [tuple(int(i) for i in release.split("."))]. A
    string outside the dotted numeric form is not given a version here. *)
Definition parse (version : string) : option (list N) :=
  traverse parse_int (PyStr.split "." version).

Fixpoint dropwhile_zero (l : list N) : list N :=
  match l with
  | [] => []
  | x :: r => if N.eqb x 0 then dropwhile_zero r else l
  end.

(** The comparison key: the release with its closing zeros dropped. *)
Definition cmpkey (release : list N) : list N :=
  List.rev (dropwhile_zero (List.rev release)).

(** Python's [<] on tuples of integers. *)
Fixpoint tuple_lt (a b : list N) : bool :=
  match a, b with
  | _, [] => false
  | [], _ :: _ => true
  | x :: a', y :: b' =>
      if N.ltb x y then true
      else if N.eqb x y then tuple_lt a' b'
      else false
  end.

Definition lt (v w : list N) : bool := tuple_lt (cmpkey v) (cmpkey w).

Definition str (v : list N) : string := PyStr.join "." (map str_int v).

End Release.

#[export] Instance Release : PackagingVersion := {|
  Version := list N;
  parse := Release.parse;
  version_lt := Release.lt;
  version_str := Release.str
|}.

(** ** JSON values and HTTP responses *)

#[local] Unset Elimination Schemes.
Inductive json : Type :=
| JNull
| JBool (b : bool)
| JNumber (literal : string)
| JString (s : string)
| JArray (elems : list json)
| JObject (members : list (string * json)).
#[local] Set Elimination Schemes.

(** [parsed[key]] for a string key: only an object can be indexed so. *)
Definition json_getitem (parsed : json) (key : string) : result json :=
  match parsed with
  | JObject members =>
      match find (fun m => String.eqb (fst m) key) members with
      | Some m => Ok (snd m)
      | None => Raise KeyError
      end
  | _ => Raise TypeError
  end.

(** The value used as a [str]. A value of another type is outside what a
    schema for version strings admits. The source fails on it where it first
    treats it as a string: at once, in the slice of [delete_closing_zero],
    for a number, a boolean, a null or an object, and only in
    [determine_senior_version] for an array, which the slice leaves as it
    is. The report holds strings here, so the failure is placed at the first
    use for every type; the statement of what the report holds asks that no
    accepted value is an array. *)
Definition as_str (value : json) : result string :=
  match value with
  | JString s => Ok s
  | _ => Raise TypeError
  end.

(** What the program reads of a [requests] response. The last two fields
    are the outcome of the loop that copies the body to the file: the chunks
    it writes and the exception that ends it early, if any, be it raised by
    the stream or by a write. *)
Record response : Type := {
  error_status : bool;               (* raise_for_status() raises HTTPError *)
  text : string;
  headers : list (string * string);
  body_chunks : list string;         (* what iter_content yields and is written *)
  body_failure : option exn          (* raised in the loop after them *)
}.

(** [r.headers[name]]: the header names are compared without case. *)
Definition headers_getitem (hs : list (string * string)) (name : string) : result string :=
  match find (fun h => String.eqb (PyStr.lower (fst h)) (PyStr.lower name)) hs with
  | Some h => Ok (snd h)
  | None => Raise KeyError
  end.

Definition raise_for_status (r : response) : result unit :=
  if error_status r then Raise HTTPError else Ok tt.

(** What [open(path, 'wb')] opens: the ledger file itself, when the path
    denotes it, or another file, given by the path that names it in the
    output folder. *)
Inductive opened : Type :=
| TheLedger
| Artifact (path : string).

(** The external collaborators: the HTTP client, the JSON decoder, the
    schema validator and the file system as far as it answers
    [open(path, 'wb')]. Within one run a URL is answered, and a path is
    opened, in one way. *)
Record environment : Type := {
  requests_get : string -> result response;
  json_loads : string -> result json;
  jsonschema_validate : json -> json -> result unit;
  open_wb : string -> result opened
}.

(** The configuration document, [config.json]. *)
Record config : Type := {
  urls_with_model_version : list (string * string);
  urls_with_model_package : list (string * string);
  folder_for_package_save : string
}.

(** ** Log lines *)

Inductive incident_type : Type := Info | Warning | Error | Disaster.

(** The text of a line: a literal, or a literal followed by the formatted
    [url_path] or [url_name_list]. *)
Inductive message : Type :=
| Msg (s : string)
| MsgUrl (s : string) (url_path : option string)
| MsgNames (s : string) (url_name_list : option (list string)).

(** A printed line, without its time stamp. *)
Record log_line : Type := {
  line_type : incident_type;
  line_url_name : option string;
  line_text : message
}.

(** The table [incidents] of [new_create_log_message]. *)
Definition incidents (url_name_list : option (list string)) (url_path : option string)
    (t : incident_type) : list message :=
  match t with
  | Info => [Msg "JSON was decode";
             MsgUrl "Package was download from URL: " url_path]
  | Warning => [Msg "JSON is not valid";
                MsgUrl "JSON did not loaded from URL: " url_path]
  | Error => [MsgNames "No version was found in " url_name_list;
              MsgUrl "Package download error from URL: " url_path]
  | Disaster => [Msg "No one package was downloaded"]
  end.

(** [new_create_log_message]: [incident_name] is held split, as
    [incident_name.split()] leaves it; an absent keyword argument is [None]. *)
Definition new_create_log_message (incident_name : incident_type * nat)
    (url_name_list : option (list string)) (url_name url_path : option string)
    : result log_line :=
  let '(incident_type, incident_code) := incident_name in
  let url_name := option_map PyStr.lower url_name in
  let url_path := option_map PyStr.lower url_path in
  match nth_error (incidents url_name_list url_path incident_type) incident_code with
  | Some m => Ok {| line_type := incident_type; line_url_name := url_name; line_text := m |}
  | None => Raise IndexError
  end.

(** ** The state of a run and its monad *)

(** A request made: the URL and whether the body is streamed. *)
Record request : Type := { req_url : string; req_stream : bool }.

Record state : Type := mkState {
  ledger : option string;            (* DOWNLOADED_MODELS; None: no such file *)
  folder : list (string * string);   (* files written under END_FOLDER *)
  stdout : list log_line;
  requests : list request
}.

(** A computation: it ends with a value or an exception, in a new state. *)
Definition M (A : Type) : Type := state -> result A * state.

Definition ret {A : Type} (a : A) : M A := fun st => (Ok a, st).

Definition raise {A : Type} (e : exn) : M A := fun st => (Raise e, st).

Definition bind {A B : Type} (m : M A) (k : A -> M B) : M B :=
  fun st =>
    match m st with
    | (Ok a, st') => k a st'
    | (Raise e, st') => (Raise e, st')
    end.

Definition lift {A : Type} (r : result A) : M A := fun st => (r, st).

(** [try: m except ...]: [handler] gives the clause that catches [e], if any. *)
Definition try_except {A : Type} (m : M A) (handler : exn -> option (M A)) : M A :=
  fun st =>
    match m st with
    | (Ok a, st') => (Ok a, st')
    | (Raise e, st') =>
        match handler e with
        | Some h => h st'
        | None => (Raise e, st')
        end
    end.

(** [for x in xs: s = body s x]. *)
Fixpoint for_each {X S : Type} (body : S -> X -> M S) (xs : list X) (s : S) : M S :=
  match xs with
  | [] => ret s
  | x :: xs' => bind (body s x) (for_each body xs')
  end.

Declare Scope monad_scope.
Delimit Scope monad_scope with monad.
Notation "x <- m ;; k" := (bind m (fun x => k))
  (at level 61, m at next level, right associativity) : monad_scope.
Notation "m ;; k" := (bind m (fun _ => k))
  (at level 61, right associativity) : monad_scope.
Open Scope monad_scope.

(** [d[key] = value] on a dict kept in insertion order. *)
Fixpoint dict_set (d : list (string * string)) (key value : string) : list (string * string) :=
  match d with
  | [] => [(key, value)]
  | (k, v) :: r =>
      if String.eqb k key then (k, value) :: r else (k, v) :: dict_set r key value
  end.

(** ** History Store *)

(** The lines a text-mode read yields: each ends with a line feed, which also
    stands for a carriage return or a carriage return and line feed of the
    file; the last line has none when the file does not end with one. *)
Fixpoint readlines (content : string) : list string :=
  match content with
  | EmptyString => []
  | String c rest =>
      if Ascii.eqb c PyStr.LF then PyStr.chr PyStr.LF :: readlines rest
      else if Ascii.eqb c PyStr.CR then
        match rest with
        | String c' rest' =>
            if Ascii.eqb c' PyStr.LF then PyStr.chr PyStr.LF :: readlines rest'
            else PyStr.chr PyStr.LF :: readlines rest
        | EmptyString => [PyStr.chr PyStr.LF]
        end
      else
        match readlines rest with
        | [] => [PyStr.chr c]
        | l :: ls => String c l :: ls
        end
  end.

(** [f"{ model_version } \n"]. *)
Definition string_pattern (model_version : string) : string :=
  model_version ++ " " ++ PyStr.chr PyStr.LF.

(** [os.path.exists(DOWNLOADED_MODELS)]. *)
Definition path_exists : M bool :=
  fun st => (Ok (match ledger st with Some _ => true | None => false end), st).

(** [has_model_already_been_downloaded]: [string_pattern in models_r] compares
    the pattern with each line of the file. *)
Definition has_model_already_been_downloaded (model_version : string) : M bool :=
  fun st =>
    match ledger st with
    | Some content =>
        (Ok (existsb (String.eqb (string_pattern model_version)) (readlines content)), st)
    | None => (Raise FileNotFoundError, st)
    end.

(** [update_downloaded_mv_in_file]: mode ["a+"] creates the file when there is
    none and writes at its end. *)
Definition update_downloaded_mv_in_file (model_version : string) : M unit :=
  fun st =>
    let content := match ledger st with Some c => c | None => EmptyString end in
    (Ok tt, mkState (Some (content ++ string_pattern model_version))
                    (folder st) (stdout st) (requests st)).

(** [create_empty_file]: mode ["w"] truncates. *)
Definition create_empty_file : M unit :=
  fun st => (Ok tt, mkState (Some EmptyString) (folder st) (stdout st) (requests st)).

(** ** Effects on the other parts of the state *)

Definition print (line : log_line) : M unit :=
  fun st => (Ok tt, mkState (ledger st) (folder st) (stdout st ++ [line]) (requests st)).

(** [print_log_message]: the generator runs when its messages are printed. *)
Definition print_log_message (error_msg : result log_line) : M unit :=
  msg <- lift error_msg ;; print msg.

(** [open(local_filename, 'wb')] and the writes of the chunks: the opening
    can raise; the file opened is truncated, be it the ledger. *)
Definition write_file (env : environment) (local_filename content : string) : M unit :=
  fun st =>
    match open_wb env local_filename with
    | Raise e => (Raise e, st)
    | Ok TheLedger =>
        (Ok tt, mkState (Some content) (folder st) (stdout st) (requests st))
    | Ok (Artifact path) =>
        (Ok tt,
         mkState (ledger st)
                 (filter (fun f => negb (String.eqb (fst f) path)) (folder st)
                    ++ [(path, content)])
                 (stdout st) (requests st))
    end.

(** ** The program *)

Section Program.

Context {packaging : PackagingVersion}.
Variable env : environment.
Variable MAIN_CONFIG : config.
Variable DH_SCHEMA : json.

(** [END_FOLDER] as the configuration spells it; [Path] changes the spelling
    of a path only (doubled slashes, single dots), not the file it denotes
    to [open]. *)
Definition END_FOLDER : string := folder_for_package_save MAIN_CONFIG.

(** [requests.get(url_path)], entered in the trace of requests. *)
Definition http_get (url_path : string) (stream : bool) : M response :=
  fun st =>
    (requests_get env url_path,
     mkState (ledger st) (folder st) (stdout st)
             (requests st ++ [{| req_url := url_path; req_stream := stream |}])).

(** [is_json_valid]: only [ValidationError] is caught. *)
Definition is_json_valid (json_data json_schema : json) : result bool :=
  match jsonschema_validate env json_data json_schema with
  | Ok _ => Ok true
  | Raise ValidationError => Ok false
  | Raise e => Raise e
  end.

(** The loop of [determine_senior_version]. *)
Fixpoint senior_fold (senior_ver : Version) (versions : list string) : result Version :=
  match versions with
  | [] => Ok senior_ver
  | ver :: rest =>
      match parse ver with
      | None => Raise InvalidVersion
      | Some v => senior_fold (if version_lt senior_ver v then v else senior_ver) rest
      end
  end.

Definition determine_senior_version (model_versions : list (string * string))
    : result string :=
  match parse "0.0" with
  | None => Raise InvalidVersion
  | Some senior_ver =>
      match senior_fold senior_ver (map snd model_versions) with
      | Ok senior_ver => Ok (version_str senior_ver)
      | Raise e => Raise e
      end
  end.

(** The [with] block of [get_mv_from_urls]: the report after this endpoint
    and the incident to log. *)
Definition poll_endpoint (dict_with_json_schema : json) (searched_field : string)
    (model_versions : list (string * string)) (url_name url_path : string)
    : M (list (string * string) * (incident_type * nat)) :=
  api_response <- http_get url_path false ;;
  parsed <- lift (json_loads env (text api_response)) ;;
  valid <- lift (is_json_valid parsed dict_with_json_schema) ;;
  if valid : bool then
    value <- lift (json_getitem parsed searched_field) ;;
    version <- lift (as_str value) ;;
    ret (dict_set model_versions url_name (delete_closing_zero version), (Info, 0))
  else ret (model_versions, (Warning, 0)).

(** One turn of the loop of [get_mv_from_urls]. *)
Definition poll_step (dict_with_json_schema : json) (searched_field : string)
    (acc : list (string * string) * list string) (item : string * string)
    : M (list (string * string) * list string) :=
  let '(model_versions, url_name_list) := acc in
  let '(url_name, url_path) := item in
  let url_name_list := (url_name_list ++ [url_name])%list in
  r <- try_except
         (poll_endpoint dict_with_json_schema searched_field model_versions url_name url_path)
         (fun e => match e with
                   | JSONDecodeError => Some (ret (model_versions, (Warning, 1)))
                   | _ => None
                   end) ;;
  print_log_message
    (new_create_log_message (snd r) None (Some url_name) (Some url_path)) ;;
  ret (fst r, url_name_list).

Definition get_mv_from_urls (dict_with_urls : config) (dict_with_json_schema : json)
    (searched_field : string) : M (list (string * string) * list string) :=
  for_each (poll_step dict_with_json_schema searched_field)
           (urls_with_model_version dict_with_urls) ([], []).

(** The [with] block of [download_nuurls_with_model_package]. *)
Definition fetch_package (url_path : string) : M unit :=
  r <- http_get url_path true ;;
  lift (raise_for_status r) ;;
  disposition <- lift (headers_getitem (headers r) "Content-Disposition") ;;
  match nth_error (PyStr.split "=" disposition) 1 with
  | None => raise IndexError
  | Some name =>
      let local_filename := END_FOLDER ++ "/" ++ PyStr.strip PyStr.quote name in
      write_file env local_filename (String.concat "" (body_chunks r)) ;;
      match body_failure r with
      | Some e => raise e
      | None => ret tt
      end
  end.

(** One turn of the loop of [download_nuurls_with_model_package]. *)
Definition download_step (dh_model_version : string) (return_code : nat)
    (item : string * string) : M nat :=
  let '(url_name, url_path) := item in
  let url_path := add_closing_slash url_path ++ dh_model_version in
  r <- try_except
         (fetch_package url_path ;; ret ((Info, 1), return_code))
         (fun e => match e with
                   | HTTPError => Some (ret ((Error, 1), 1))
                   | _ => None
                   end) ;;
  print_log_message
    (new_create_log_message (fst r) None (Some url_name) (Some url_path)) ;;
  ret (snd r).

Definition download_nuurls_with_model_package (dict_with_urls : config)
    (dh_model_version : string) : M nat :=
  for_each (download_step dh_model_version) (urls_with_model_package dict_with_urls) 0.

Definition main : M unit :=
  let searched_field := "modelsVersion" in
  polled <- get_mv_from_urls MAIN_CONFIG DH_SCHEMA searched_field ;;
  let '(models, url_name_list) := polled in
  match models with
  | _ :: _ =>
      dh_model_version <- lift (determine_senior_version models) ;;
      present <- path_exists ;;
      (if negb present then create_empty_file else ret tt) ;;
      downloaded <- has_model_already_been_downloaded dh_model_version ;;
      if negb downloaded then
        download_code <- download_nuurls_with_model_package MAIN_CONFIG dh_model_version ;;
        if Nat.eqb download_code 0
        then update_downloaded_mv_in_file dh_model_version
        else ret tt
      else ret tt
  | [] =>
      print_log_message
        (new_create_log_message (Error, 0) (Some url_name_list) None None) ;;
      print_log_message (new_create_log_message (Disaster, 0) None None None)
  end.

End Program.

(** ** Vocabulary of the statements *)

(** The file made of the given lines, each closed by a line feed. *)
Fixpoint unlines (lines : list string) : string :=
  match lines with
  | [] => EmptyString
  | l :: ls => l ++ String PyStr.LF (unlines ls)
  end.

(** The file is empty or ends with a line terminator: each of its lines is
    closed. *)
Fixpoint terminated (content : string) : bool :=
  match content with
  | EmptyString => true
  | String c EmptyString => Ascii.eqb c PyStr.LF || Ascii.eqb c PyStr.CR
  | String _ rest => terminated rest
  end.

(** The state after appending the versions, in order. *)
Definition append_all (versions : list string) (st : state) : state :=
  fold_left (fun s v => snd (update_downloaded_mv_in_file v s)) versions st.

(** What the ledger file holds; nothing when there is no file. *)
Definition ledger_content (st : state) : string :=
  match ledger st with
  | Some content => content
  | None => EmptyString
  end.

(** A first run: no ledger, nothing written, printed or requested yet. *)
Definition initial_state : state := mkState None [] [] [].

(** The computation leaves the part [f] of the state as it was, whether it
    returns or raises. *)
Definition preserves {A B : Type} (f : state -> B) (m : M A) : Prop :=
  forall st, f (snd (m st)) = f st.

(** What holds of the state before the computation holds after it, whether
    it returns or raises. *)
Definition keeps {A : Type} (P : state -> Prop) (m : M A) : Prop :=
  forall st, P st -> P (snd (m st)).

(** There is a ledger file. *)
Definition ledger_exists (st : state) : Prop := ledger st <> None.

(** The URL asked of a package endpoint for a version. *)
Definition package_url (dh_model_version : string) (item : string * string) : string :=
  add_closing_slash (snd item) ++ dh_model_version.





(** No path that is opened for a download denotes the ledger file. *)
Definition spares_ledger (env : environment) : Prop :=
  forall path, open_wb env path <> Ok TheLedger.


(** The request made of a version-check endpoint. *)
Definition poll_request (item : string * string) : request :=
  {| req_url := snd item; req_stream := false |}.

(** The state once the ledger file is there: created empty when it was not. *)
Definition initialised (st : state) : state :=
  match ledger st with
  | Some _ => st
  | None => snd (create_empty_file st)
  end.

(** The membership test on what the ledger holds. *)
Definition contains (model_version : string) (st : state) : bool :=
  existsb (String.eqb (string_pattern model_version)) (readlines (ledger_content st)).

(** The two lines printed when no endpoint gave a version. *)
Definition no_version_line (url_name_list : list string) : log_line :=
  {| line_type := Error; line_url_name := None;
     line_text := MsgNames "No version was found in " (Some url_name_list) |}.

Definition nothing_downloaded_line : log_line :=
  {| line_type := Disaster; line_url_name := None;
     line_text := Msg "No one package was downloaded" |}.

(** The computation makes the requests [rs], in this order, whether it
    returns or raises. *)
Definition adds {A : Type} (rs : list request) (m : M A) : Prop :=
  forall st, requests (snd (m st)) = (requests st ++ rs)%list.

(** The request to a version-check URL gets a response, and the body is of
    no consequence beyond a warning (the decoder rejects it with a JSON
    decode error, or the schema rejects the decoded value) or carries, under
    the schema, a string field [modelsVersion] that the version library
    accepts once normalised. *)
Definition poll_absorbed {packaging : PackagingVersion} (env : environment)
    (schema : json) (url_path : string) : Prop :=
  exists r,
    requests_get env url_path = Ok r /\
    match json_loads env (text r) with
    | Raise e => e = JSONDecodeError
    | Ok parsed =>
        jsonschema_validate env parsed schema = Raise ValidationError \/
        (jsonschema_validate env parsed schema = Ok tt /\
         exists s, json_getitem parsed "modelsVersion" = Ok (JString s) /\
                   parse (delete_closing_zero s) <> None)
    end.

(** Every version of the report is one the version library accepts. *)
Definition parsable {packaging : PackagingVersion} (report : list (string * string)) : Prop :=
  Forall (fun entry => parse (snd entry) <> None) report.

(** The line printed for a version-check endpoint that answers: what became
    of its body. (An endpoint that cannot be reached prints nothing, the run
    ends there.) *)
Definition poll_line (env : environment) (schema : json) (item : string * string)
    : log_line :=
  let url_name := Some (PyStr.lower (fst item)) in
  let url_path := Some (PyStr.lower (snd item)) in
  let not_json :=
    {| line_type := Warning; line_url_name := url_name;
       line_text := MsgUrl "JSON did not loaded from URL: " url_path |} in
  match requests_get env (snd item) with
  | Ok r =>
      match json_loads env (text r) with
      | Raise _ => not_json
      | Ok parsed =>
          match jsonschema_validate env parsed schema with
          | Ok _ => {| line_type := Info; line_url_name := url_name;
                       line_text := Msg "JSON was decode" |}
          | Raise _ => {| line_type := Warning; line_url_name := url_name;
                          line_text := Msg "JSON is not valid" |}
          end
      end
  | Raise _ => not_json
  end.


(** ** Sample runs *)

Module Sample.

Definition quoted (s : string) : string :=
  PyStr.chr PyStr.quote ++ s ++ PyStr.chr PyStr.quote.

(** The body [{"modelsVersion":"<version>"}]. *)
Definition version_body (version : string) : string :=
  "{" ++ quoted "modelsVersion" ++ ":" ++ quoted version ++ "}".

Definition reply (body : string) : response :=
  {| error_status := false; text := body; headers := [];
     body_chunks := []; body_failure := None |}.

(** A 200 response carrying [pkg.nupkg]. *)
Definition package : response :=
  {| error_status := false; text := EmptyString;
     headers := [("content-disposition", "attachment; filename=" ++ quoted "pkg.nupkg")];
     body_chunks := ["PK"; "data"]; body_failure := None |}.

(** A response with an error status. *)
Definition refused : response :=
  {| error_status := true; text := "Not Found"; headers := [];
     body_chunks := []; body_failure := None |}.

(** [json.loads] on the bodies of the samples. *)
Definition decode (body : string) : result json :=
  if String.eqb body (version_body "1.0.166.1")
  then Ok (JObject [("modelsVersion", JString "1.0.166.1")])
  else if String.eqb body (version_body "1.0.198.0")
  then Ok (JObject [("modelsVersion", JString "1.0.198.0")])
  else if String.eqb body "{}" then Ok (JObject [])
  else Raise JSONDecodeError.

(** A file system in which a path that ends with a slash is a directory and
    every other path names a file of its own. *)
Definition plain_open (path : string) : result opened :=
  if String.eqb (PyStr.tail 1 path) "/" then Raise IsADirectoryError
  else Ok (Artifact path).

(** A schema that requires a string field [modelsVersion]. *)
Definition validate (instance schema : json) : result unit :=
  match json_getitem instance "modelsVersion" with
  | Ok (JString _) => Ok tt
  | _ => Raise ValidationError
  end.

(** A network that answers the listed URLs and cannot reach any other. *)
Definition serve (table : list (string * response)) (url : string) : result response :=
  match find (fun row => String.eqb (fst row) url) table with
  | Some row => Ok (snd row)
  | None => Raise ConnectionError
  end.

Definition network (table : list (string * response)) : environment :=
  {| requests_get := serve table; json_loads := decode; jsonschema_validate := validate;
     open_wb := plain_open |}.

Definition cfg : config :=
  {| urls_with_model_version := [("dh1", "https://dh1/ping"); ("dh2", "https://dh2/ping2")];
     urls_with_model_package := [("prgt", "http://proget/Models");
                                 ("mirror", "http://mirror/Models/")];
     folder_for_package_save := "packages" |}.

(** The same configuration without package endpoints. *)
Definition cfg_no_package : config :=
  {| urls_with_model_version := urls_with_model_version cfg;
     urls_with_model_package := [];
     folder_for_package_save := "packages" |}.

Definition versions : list (string * response) :=
  [("https://dh1/ping", reply (version_body "1.0.166.1"));
   ("https://dh2/ping2", reply (version_body "1.0.198.0"))].

(** Every endpoint answers well. *)
Definition healthy : environment :=
  network (versions ++ [("http://proget/Models/1.0.198", package);
                        ("http://mirror/Models/1.0.198", package)]).

(** One of the two package endpoints answers with an error status. *)
Definition partial : environment :=
  network (versions ++ [("http://proget/Models/1.0.198", package);
                        ("http://mirror/Models/1.0.198", refused)]).

(** The version-check endpoints answer with a page and with an object
    without the version field. *)
Definition garbled : environment :=
  network [("https://dh1/ping", reply "<html>"); ("https://dh2/ping2", reply "{}")].

(** No endpoint can be reached. *)
Definition offline : environment := network [].

(** The package endpoints cannot be reached. *)
Definition package_offline : environment := network versions.

(** A page instead of JSON from one version-check endpoint, and an error
    status from the mirror, whatever the version asked. *)
Definition degraded : environment :=
  {| requests_get := fun url =>
       if PyStr.startswith url "http://proget/Models/" then Ok package
       else if PyStr.startswith url "http://mirror/Models/" then Ok refused
       else serve [("https://dh1/ping", reply "<html>");
                   ("https://dh2/ping2", reply (version_body "1.0.198.0"))] url;
     json_loads := decode;
     jsonschema_validate := validate;
     open_wb := plain_open |}.

(** A ledger that lists 1.0.198 already. *)
Definition listed : state :=
  mkState (Some (unlines ["1.0.166.1 "; "1.0.198 "])) [] [] [].

End Sample.

(** ** Vocabulary of the further properties *)

(** The version an endpoint contributes to the report: the normalised value
    of the string field [modelsVersion] of a body that decodes and that the
    schema accepts; nothing otherwise. *)
Definition reported (env : environment) (schema : json) (item : string * string)
    : option string :=
  match requests_get env (snd item) with
  | Ok r =>
      match json_loads env (text r) with
      | Ok parsed =>
          match jsonschema_validate env parsed schema with
          | Ok _ =>
              match json_getitem parsed "modelsVersion" with
              | Ok (JString s) => Some (delete_closing_zero s)
              | _ => None
              end
          | Raise _ => None
          end
      | Raise _ => None
      end
  | Raise _ => None
  end.

(** The field [modelsVersion] of a body from [url_path] that the schema
    accepts is not an array. *)
Definition version_is_no_array (env : environment) (schema : json) (url_path : string)
    : Prop :=
  forall r parsed elems,
    requests_get env url_path = Ok r ->
    json_loads env (text r) = Ok parsed ->
    jsonschema_validate env parsed schema = Ok tt ->
    json_getitem parsed "modelsVersion" <> Ok (JArray elems).

(** The entry of the report for an endpoint, if it has one. *)
Definition report_entry (env : environment) (schema : json) (item : string * string)
    : list (string * string) :=
  match reported env schema item with
  | Some version => [(fst item, version)]
  | None => []
  end.

(** The request made of a package endpoint for a version. *)
Definition package_request (dh_model_version : string) (item : string * string) : request :=
  {| req_url := package_url dh_model_version item; req_stream := true |}.

(** The header value [<prefix>="<name>"]. *)
Definition disposition (prefix name : string) : string :=
  prefix ++ "=" ++ PyStr.chr PyStr.quote ++ name ++ PyStr.chr PyStr.quote.

(** Further sample networks. *)
Module Scenario.

(** The first version-check endpoint answers with a page, the second cannot
    be reached. *)
Definition second_unreachable : environment :=
  Sample.network [("https://dh1/ping", Sample.reply "<html>")].

(** The endpoints answer well, the validator rejects the schema itself. *)
Definition broken_schema : environment :=
  {| requests_get := Sample.serve Sample.versions;
     json_loads := Sample.decode;
     jsonschema_validate := fun _ _ => Raise SchemaError;
     open_wb := Sample.plain_open |}.









(** A version string with a line feed in it. *)
Definition two_lines : string := "1.0" ++ PyStr.chr PyStr.LF ++ "198".

(** A ledger of one line. *)
Definition one_line : state := mkState (Some (unlines ["1.0.166.1 "])) [] [] [].

(** The same ledger without the line feed that closes the line. *)
Definition unterminated : state := mkState (Some "1.0.166.1 ") [] [] [].

End Scenario.

(** ** Facts about slices *)

Section SliceFacts.

Lemma append_length (a b : string) :
  length (a ++ b) = length a + length b.
Proof. induction a as [|c a IH]; simpl; [reflexivity | now rewrite IH]. Qed.

Lemma append_nil_r (a : string) : a ++ "" = a.
Proof. induction a as [|c a IH]; simpl; [reflexivity | now rewrite IH]. Qed.

Lemma append_assoc (a b c : string) : (a ++ b) ++ c = a ++ (b ++ c).
Proof. induction a as [|x a IH]; simpl; [reflexivity | now rewrite IH]. Qed.

Lemma substring_whole (s : string) (n : nat) :
  length s <= n -> substring 0 n s = s.
Proof.
  revert n; induction s as [|c s IH]; intros [|n] H; simpl in *;
    try reflexivity; try lia.
  now rewrite IH by lia.
Qed.

Lemma substring_skip_prefix (p t : string) (n : nat) :
  substring (length p) n (p ++ t) = substring 0 n t.
Proof. induction p as [|c p IH]; simpl; [reflexivity | exact IH]. Qed.

Lemma substring_take_prefix (p t : string) :
  substring 0 (length p) (p ++ t) = p.
Proof.
  induction p as [|c p IH]; simpl.
  - now destruct t.
  - now rewrite IH.
Qed.

Lemma substring_split (s : string) (k n : nat) :
  length s <= k + n -> substring 0 k s ++ substring k n s = s.
Proof.
  revert k; induction s as [|c s IH]; intros [|k] H; simpl in *.
  - now destruct n.
  - reflexivity.
  - destruct n as [|n]; [lia|]. now rewrite substring_whole by lia.
  - now rewrite IH by lia.
Qed.

Lemma tail_app (p t : string) : PyStr.tail (length t) (p ++ t) = t.
Proof.
  unfold PyStr.tail. rewrite append_length.
  replace (length p + length t - length t) with (length p) by lia.
  rewrite substring_skip_prefix. now apply substring_whole.
Qed.

Lemma drop_tail_app (p t : string) : PyStr.drop_tail (length t) (p ++ t) = p.
Proof.
  unfold PyStr.drop_tail. rewrite append_length.
  replace (length p + length t - length t) with (length p) by lia.
  apply substring_take_prefix.
Qed.

Lemma drop_tail_tail (n : nat) (s : string) :
  PyStr.drop_tail n s ++ PyStr.tail n s = s.
Proof. unfold PyStr.drop_tail, PyStr.tail. apply substring_split. lia. Qed.

Lemma append_inj_l (a b t : string) : a ++ t = b ++ t -> a = b.
Proof.
  revert b; induction a as [|x a IH]; intros [|y b] H; simpl in *.
  - reflexivity.
  - apply (f_equal length) in H. simpl in H. rewrite append_length in H. lia.
  - apply (f_equal length) in H. simpl in H. rewrite append_length in H. lia.
  - injection H as -> H. now rewrite (IH b H).
Qed.

End SliceFacts.

(** ** Facts about [delete_closing_zero] *)

Lemma delete_closing_zero_strip (p : string) :
  delete_closing_zero (p ++ ".0") = p.
Proof.
  unfold delete_closing_zero.
  pose proof (tail_app p ".0") as T. simpl length in T. rewrite T.
  exact (drop_tail_app p ".0").
Qed.

Lemma delete_closing_zero_keep (v : string) :
  ~ PyStr.ends_with ".0" v -> delete_closing_zero v = v.
Proof.
  intros H. unfold delete_closing_zero.
  destruct (String.eqb_spec (PyStr.tail 2 v) ".0") as [E|E]; [|reflexivity].
  exfalso. apply H. exists (PyStr.drop_tail 2 v).
  now rewrite <- E, drop_tail_tail.
Qed.

Lemma delete_closing_zero_cases (v : string) :
  (exists p, v = p ++ ".0" /\ delete_closing_zero v = p) \/
  (~ PyStr.ends_with ".0" v /\ delete_closing_zero v = v).
Proof.
  destruct (String.eqb_spec (PyStr.tail 2 v) ".0") as [E|E].
  - left. exists (PyStr.drop_tail 2 v).
    assert (v = PyStr.drop_tail 2 v ++ ".0") as Hv
        by now rewrite <- E, drop_tail_tail.
    split; [exact Hv|]. rewrite Hv at 1. apply delete_closing_zero_strip.
  - right. assert (~ PyStr.ends_with ".0" v) as H.
    { intros [p ->]. apply E. exact (tail_app p ".0"). }
    split; [exact H | now apply delete_closing_zero_keep].
Qed.

(** C8. [delete_closing_zero] removes exactly one closing [".0"]: whatever
    stands before the suffix is returned as it is, also when it ends in
    [".0"] itself (the function does not recurse), and a string that does not
    end in [".0"] is returned unchanged. *)
Theorem delete_closing_zero_spec :
  (forall p, delete_closing_zero (p ++ ".0") = p) /\
  (forall v, ~ PyStr.ends_with ".0" v -> delete_closing_zero v = v) /\
  delete_closing_zero "1.0.198.0" = "1.0.198" /\
  delete_closing_zero "1.0.0.0" = "1.0.0" /\
  delete_closing_zero "1.0.166.1" = "1.0.166.1".
Proof.
  split; [exact delete_closing_zero_strip|].
  split; [exact delete_closing_zero_keep|].
  repeat split; reflexivity.
Qed.

(** C7, as stated, fails: ["1.0.0"] normalises to ["1.0"], which normalises
    again to ["1"]. *)
Lemma delete_closing_zero_not_idempotent :
  ~ (forall v, delete_closing_zero (delete_closing_zero v) = delete_closing_zero v).
Proof. intros H. specialize (H "1.0.0"). discriminate H. Qed.

(** C7, amended. Normalising twice equals normalising once exactly for the
    strings that do not end in [".0.0"]. *)
Theorem delete_closing_zero_idempotent_iff (v : string) :
  delete_closing_zero (delete_closing_zero v) = delete_closing_zero v <->
  ~ PyStr.ends_with ".0.0" v.
Proof.
  split.
  - intros H [p ->].
    change (p ++ ".0.0") with (p ++ ".0" ++ ".0") in H.
    rewrite <- append_assoc in H.
    rewrite !delete_closing_zero_strip in H.
    apply (f_equal length) in H. rewrite append_length in H. simpl in H. lia.
  - intros H. destruct (delete_closing_zero_cases v) as [[p [-> ->]]|[_ E]].
    + apply delete_closing_zero_keep. intros [q ->]. apply H.
      exists q. now rewrite append_assoc.
    + now rewrite !E.
Qed.

(** ** History Store: reading back what was appended *)

Lemma readlines_line (l rest : string) :
  PyStr.no_line_break l ->
  readlines (l ++ String PyStr.LF rest) = (l ++ PyStr.chr PyStr.LF) :: readlines rest.
Proof.
  induction l as [|c l IH]; intros H.
  - reflexivity.
  - destruct H as (Hlf & Hcr & Hl). simpl.
    apply Ascii.eqb_neq in Hlf, Hcr. rewrite Hlf, Hcr.
    now rewrite (IH Hl).
Qed.

Lemma readlines_unlines (lines : list string) :
  Forall PyStr.no_line_break lines ->
  readlines (unlines lines) = map (fun l => l ++ PyStr.chr PyStr.LF) lines.
Proof.
  induction 1 as [|l ls Hl _ IH]; simpl; [reflexivity|].
  now rewrite readlines_line, IH.
Qed.

Lemma unlines_app (a b : list string) :
  unlines (a ++ b) = unlines a ++ unlines b.
Proof.
  induction a as [|l a IH]; simpl; [reflexivity|].
  rewrite IH, append_assoc. reflexivity.
Qed.

Lemma no_line_break_app (a b : string) :
  PyStr.no_line_break a -> PyStr.no_line_break b -> PyStr.no_line_break (a ++ b).
Proof.
  induction a as [|c a IH]; simpl; [auto|].
  intros (H1 & H2 & H3) Hb. auto.
Qed.

Lemma string_pattern_line (v : string) :
  string_pattern v = unlines [v ++ " "].
Proof. unfold string_pattern. simpl. now rewrite append_assoc. Qed.

Lemma existsb_pattern (v : string) (lines : list string) :
  existsb (String.eqb (string_pattern v)) (map (fun l => l ++ PyStr.chr PyStr.LF) lines) = true
  <-> In (v ++ " ") lines.
Proof.
  rewrite existsb_exists. split.
  - intros (x & Hx & E). apply in_map_iff in Hx as (l & <- & Hl).
    apply String.eqb_eq in E. rewrite string_pattern_line in E. simpl in E.
    change (String PyStr.LF "") with (PyStr.chr PyStr.LF) in E.
    apply append_inj_l in E. now subst.
  - intros H. exists ((v ++ " ") ++ PyStr.chr PyStr.LF). split.
    + apply in_map_iff. now exists (v ++ " ").
    + apply String.eqb_eq. unfold string_pattern. now rewrite append_assoc.
Qed.

Lemma append_all_ledger (vs : list string) (st : state) :
  ledger_content (append_all vs st)
  = ledger_content st ++ unlines (map (fun w => w ++ " ") vs).
Proof.
  revert st; induction vs as [|w vs IH]; intros st; simpl.
  - now rewrite append_nil_r.
  - unfold append_all in *. simpl. rewrite IH.
    unfold ledger_content at 1. simpl. fold (ledger_content st).
    rewrite string_pattern_line. simpl. now rewrite !append_assoc.
Qed.

Lemma append_all_exists (vs : list string) (st : state) :
  ledger st <> None -> ledger (append_all vs st) <> None.
Proof.
  revert st; induction vs as [|w vs IH]; intros st H; simpl; [exact H|].
  apply IH. simpl. discriminate.
Qed.

Lemma contains_unlines (st : state) (lines : list string) (v : string) :
  ledger st = Some (unlines lines) ->
  Forall PyStr.no_line_break lines ->
  fst (has_model_already_been_downloaded v st)
  = Ok (existsb (String.eqb (v ++ " ")) lines).
Proof.
  intros E H. unfold has_model_already_been_downloaded. rewrite E. simpl.
  rewrite readlines_unlines by exact H. f_equal.
  apply eq_true_iff_eq. rewrite existsb_pattern, existsb_exists. split.
  - intros Hin. exists (v ++ " "). split; [exact Hin | apply String.eqb_refl].
  - intros (x & Hx & Ex). apply String.eqb_eq in Ex. now subst.
Qed.

Ltac no_line_break_tac :=
  repeat (apply Forall_cons || apply Forall_nil);
  cbv; repeat split; discriminate.

Lemma append_all_lines (vs : list string) (st : state) :
  ledger (append_all vs (snd (create_empty_file st)))
  = Some (unlines (map (fun w => w ++ " ") vs)).
Proof.
  pose proof (append_all_ledger vs (snd (create_empty_file st))) as E.
  pose proof (append_all_exists vs (snd (create_empty_file st))) as N.
  unfold ledger_content in E.
  destruct (ledger (append_all vs (snd (create_empty_file st)))) as [c|].
  - now rewrite E.
  - exfalso. apply N; [discriminate | reflexivity].
Qed.

Lemma contains_iff_line (st : state) (lines : list string) (v : string) :
  ledger st = Some (unlines lines) ->
  Forall PyStr.no_line_break lines ->
  fst (has_model_already_been_downloaded v st) = Ok true <-> In (v ++ " ") lines.
Proof.
  intros E H. rewrite (contains_unlines st lines v E H). split.
  - intros [= Hex]. apply existsb_exists in Hex as (x & Hx & Ex).
    apply String.eqb_eq in Ex. now subst.
  - intros Hin. f_equal. apply existsb_exists.
    exists (v ++ " "). split; [exact Hin | apply String.eqb_refl].
Qed.

Lemma readlines_nonempty (c : ascii) (s : string) : readlines (String c s) <> [].
Proof.
  simpl. destruct (Ascii.eqb c PyStr.LF); [discriminate|].
  destruct (Ascii.eqb c PyStr.CR).
  - destruct s as [|c' s']; [discriminate|]. destruct (Ascii.eqb c' PyStr.LF); discriminate.
  - destruct (readlines s); discriminate.
Qed.

(** Text written after a closed line starts a line of its own; a line feed
    first would join a carriage return before it. *)
Lemma readlines_app (a b : string) :
  terminated a = true -> (forall b', b <> String PyStr.LF b') ->
  readlines (a ++ b) = (readlines a ++ readlines b)%list.
Proof.
  remember (length a) as n eqn:En. revert a En.
  induction n as [n IH] using lt_wf_ind. intros a En Ha Hb.
  destruct a as [|c a]; [reflexivity|].
  assert (forall a', length a' < n -> terminated a' = true ->
            readlines (a' ++ b) = (readlines a' ++ readlines b)%list) as IH'.
  { intros a' Hlt Ht. now apply (IH (length a')). }
  simpl in En.
  change (String c a ++ b) with (String c (a ++ b)).
  cbn [readlines].
  destruct (Ascii.eqb c PyStr.LF) eqn:Elf.
  - rewrite IH'; [reflexivity|lia|]. destruct a; [reflexivity|exact Ha].
  - destruct (Ascii.eqb c PyStr.CR) eqn:Ecr.
    + destruct a as [|c' a'].
      * simpl. destruct b as [|cb b']; [reflexivity|].
        destruct (Ascii.eqb cb PyStr.LF) eqn:Ecb; [|reflexivity].
        apply Ascii.eqb_eq in Ecb. subst cb. now destruct (Hb b').
      * change (String c' a' ++ b) with (String c' (a' ++ b)). cbn iota.
        destruct (Ascii.eqb c' PyStr.LF) eqn:Elf'.
        -- rewrite IH'; [reflexivity|simpl in *; lia|].
           simpl in Ha. destruct a'; [reflexivity|exact Ha].
        -- change (String c' (a' ++ b)) with (String c' a' ++ b).
           rewrite IH'; [reflexivity|simpl in *; lia|exact Ha].
    + destruct a as [|c' a'].
      * simpl in Ha. rewrite Elf, Ecr in Ha. discriminate Ha.
      * rewrite IH'; [|simpl in *; lia|exact Ha].
        pose proof (readlines_nonempty c' a') as Hne.
        destruct (readlines (String c' a')) as [|l ls]; [congruence|reflexivity].
Qed.

(** An append to a ledger of closed lines adds one line, the pattern. *)
Lemma readlines_append (content v : string) :
  terminated content = true -> PyStr.no_line_break v ->
  readlines (content ++ string_pattern v)
  = (readlines content ++ [string_pattern v])%list.
Proof.
  intros Hc Hv. rewrite readlines_app; [f_equal| exact Hc |].
  - assert (PyStr.no_line_break (v ++ " ")) as Hl
        by (apply no_line_break_app; [exact Hv|]; cbv; repeat split; discriminate).
    rewrite string_pattern_line.
    rewrite (readlines_unlines [(v ++ " ")%string]) by (constructor; [exact Hl|constructor]).
    reflexivity.
  - intros b'. unfold string_pattern. destruct v as [|c v]; simpl; [discriminate|].
    destruct Hv as (Hlf & _). congruence.
Qed.

(** C3, as stated, fails. On a ledger whose last line is not closed by a
    line feed, the membership test does not find the version of that line,
    and a version appended joins the line and is not found either. A version
    string with a line feed in it is written as two lines: the test does not
    find it, and finds its last part, which was never appended. *)
Lemma ledger_membership_claim_fails :
  fst (has_model_already_been_downloaded "1.0.166.1" Scenario.unterminated) = Ok false /\
  fst (has_model_already_been_downloaded "1.0.198"
         (snd (update_downloaded_mv_in_file "1.0.198" Scenario.unterminated)))
  = Ok false /\
  fst (has_model_already_been_downloaded Scenario.two_lines
         (snd (update_downloaded_mv_in_file Scenario.two_lines Scenario.one_line)))
  = Ok false /\
  fst (has_model_already_been_downloaded "198"
         (append_all [Scenario.two_lines] (snd (create_empty_file initial_state))))
  = Ok true.
Proof. vm_compute. repeat split; reflexivity. Qed.

(** C3, amended. For a version string free of line terminators: once the
    version is appended to a ledger that is empty or ends with a line
    terminator, the membership test holds for it; on a ledger that is a
    sequence of lines, the test holds exactly when one of the lines is the
    version followed by one space; and on a ledger made by the store itself
    (created empty, then appended to) it fails for every version that was
    never appended. *)
Theorem ledger_contains_iff_appended (v : string) :
  (forall st,
     terminated (ledger_content st) = true -> PyStr.no_line_break v ->
     fst (has_model_already_been_downloaded v
            (snd (update_downloaded_mv_in_file v st))) = Ok true) /\
  (forall st lines,
     ledger st = Some (unlines lines) -> Forall PyStr.no_line_break lines ->
     (fst (has_model_already_been_downloaded v st) = Ok true <-> In (v ++ " ") lines)) /\
  (forall st0 vs,
     Forall PyStr.no_line_break vs -> ~ In v vs ->
     fst (has_model_already_been_downloaded v
            (append_all vs (snd (create_empty_file st0)))) = Ok false).
Proof.
  split; [|split].
  - intros st Hc Hv.
    unfold has_model_already_been_downloaded, update_downloaded_mv_in_file. simpl.
    fold (ledger_content st). rewrite (readlines_append _ _ Hc Hv).
    rewrite existsb_app. simpl. now rewrite String.eqb_refl, orb_true_r.
  - intros st lines E Hlines. now apply contains_iff_line.
  - intros st0 vs Hvs Hnot.
    assert (Forall PyStr.no_line_break (map (fun w => w ++ " ") vs)) as Hl.
    { apply Forall_map. eapply Forall_impl; [|exact Hvs].
      intros w Hw. apply no_line_break_app; [exact Hw|].
      cbv. repeat split; discriminate. }
    rewrite (contains_unlines _ _ v (append_all_lines vs st0) Hl). f_equal.
    destruct (existsb _ _) eqn:Hex; [|reflexivity].
    exfalso. apply Hnot. apply existsb_exists in Hex as (x & Hx & Ex).
    apply String.eqb_eq in Ex. subst x.
    apply in_map_iff in Hx as (w & Ew & Hw).
    apply append_inj_l in Ew. now subst.
Qed.

Lemma ledger_contains_iff_appended_witness :
  fst (has_model_already_been_downloaded "1.0.198"
         (snd (update_downloaded_mv_in_file "1.0.198" Scenario.one_line)))
  = Ok true /\
  (fst (has_model_already_been_downloaded "1.0.198" Sample.listed) = Ok true
   <-> In "1.0.198 " ["1.0.166.1 "; "1.0.198 "]) /\
  fst (has_model_already_been_downloaded "1.0.198"
         (append_all ["1.0.166.1"; "1.0.198.0"] (snd (create_empty_file initial_state))))
  = Ok false.
Proof.
  destruct (ledger_contains_iff_appended "1.0.198") as (Happ & Hiff & Hnot).
  split; [|split].
  - apply Happ; [reflexivity|]. cbv. repeat split; discriminate.
  - apply (Hiff Sample.listed ["1.0.166.1 "; "1.0.198 "] eq_refl). no_line_break_tac.
  - apply Hnot; [no_line_break_tac|].
    simpl. intros [E|[E|[]]]; discriminate E.
Defined.

(** ** Version Comparator: the order of [packaging] on release segments *)

Lemma tuple_lt_irrefl (a : list N) : Release.tuple_lt a a = false.
Proof.
  induction a as [|x a IH]; simpl; [reflexivity|].
  now rewrite N.ltb_irrefl, N.eqb_refl.
Qed.

Lemma tuple_lt_trans (a b c : list N) :
  Release.tuple_lt a b = true -> Release.tuple_lt b c = true ->
  Release.tuple_lt a c = true.
Proof.
  revert b c; induction a as [|x a IH]; intros [|y b] [|z c]; simpl;
    try discriminate; try reflexivity.
  destruct (N.ltb_spec x y), (N.eqb_spec x y), (N.ltb_spec y z), (N.eqb_spec y z),
    (N.ltb_spec x z), (N.eqb_spec x z);
    try discriminate; try reflexivity; try lia.
  apply IH.
Qed.

Lemma tuple_lt_total (a b : list N) :
  Release.tuple_lt a b = false -> Release.tuple_lt b a = false -> a = b.
Proof.
  revert b; induction a as [|x a IH]; intros [|y b]; simpl;
    try discriminate; try reflexivity.
  destruct (N.ltb_spec x y), (N.eqb_spec x y), (N.ltb_spec y x), (N.eqb_spec y x);
    try discriminate; try lia.
  intros H1 H2. subst. f_equal. now apply IH.
Qed.

Lemma release_lt_irrefl (v : list N) : Release.lt v v = false.
Proof. apply tuple_lt_irrefl. Qed.

Lemma release_lt_trans (u v w : list N) :
  Release.lt u v = true -> Release.lt v w = true -> Release.lt u w = true.
Proof. apply tuple_lt_trans. Qed.

Lemma release_lt_total (v w : list N) :
  Release.lt v w = true \/ Release.lt w v = true \/ Release.cmpkey v = Release.cmpkey w.
Proof.
  unfold Release.lt.
  destruct (Release.tuple_lt (Release.cmpkey v) (Release.cmpkey w)) eqn:E1; [now left|].
  destruct (Release.tuple_lt (Release.cmpkey w) (Release.cmpkey v)) eqn:E2;
    [now right; left|].
  right; right. now apply tuple_lt_total.
Qed.

(** ** Version Comparator: printing and parsing back *)

Lemma split_free (sep : ascii) (p : string) :
  PyStr.free_of sep p -> PyStr.split sep p = [p].
Proof.
  induction p as [|c p IH]; simpl; [reflexivity|].
  intros [Hc Hp]. apply Ascii.eqb_neq in Hc. rewrite Hc, (IH Hp). reflexivity.
Qed.

Lemma split_piece (sep : ascii) (p rest : string) :
  PyStr.free_of sep p ->
  PyStr.split sep (p ++ String sep rest) = p :: PyStr.split sep rest.
Proof.
  induction p as [|c p IH]; simpl.
  - intros _. now rewrite Ascii.eqb_refl.
  - intros [Hc Hp]. apply Ascii.eqb_neq in Hc. rewrite Hc, (IH Hp). reflexivity.
Qed.

Lemma split_join (sep : ascii) (parts : list string) :
  parts <> [] -> Forall (PyStr.free_of sep) parts ->
  PyStr.split sep (PyStr.join (PyStr.chr sep) parts) = parts.
Proof.
  induction parts as [|p ps IH]; [congruence|].
  intros _ H. inversion H as [|? ? Hp Hps]; subst.
  destruct ps as [|q ps].
  - simpl. now apply split_free.
  - change (PyStr.join (PyStr.chr sep) (p :: q :: ps))
      with (p ++ String sep (PyStr.join (PyStr.chr sep) (q :: ps))).
    rewrite split_piece by exact Hp. f_equal. apply IH; [discriminate | exact Hps].
Qed.

Lemma string_of_uint_free_of_dot (d : uint) :
  PyStr.free_of "." (NilEmpty.string_of_uint d).
Proof. induction d; simpl; repeat split; try discriminate; assumption. Qed.

Lemma str_int_free_of_dot (n : N) : PyStr.free_of "." (Release.str_int n).
Proof.
  unfold Release.str_int, NilZero.string_of_uint.
  destruct (N.to_uint n); try apply string_of_uint_free_of_dot.
  simpl. repeat split. discriminate.
Qed.

Lemma to_uint_nonnil (n : N) : N.to_uint n <> Nil.
Proof.
  destruct n as [|p]; simpl; [discriminate|].
  apply DecimalPos.Unsigned.to_uint_nonnil.
Qed.

Lemma parse_int_str_int (n : N) : Release.parse_int (Release.str_int n) = Some n.
Proof.
  unfold Release.parse_int, Release.str_int.
  rewrite NilZero.usu by apply to_uint_nonnil. simpl.
  now rewrite DecimalN.Unsigned.of_to.
Qed.

Lemma traverse_parse_int (v : list N) :
  Release.traverse Release.parse_int (map Release.str_int v) = Some v.
Proof.
  induction v as [|n v IH]; simpl; [reflexivity|].
  now rewrite parse_int_str_int, IH.
Qed.

Lemma parse_str (v : list N) :
  v <> [] -> Release.parse (Release.str v) = Some v.
Proof.
  intros Hv. unfold Release.parse, Release.str.
  change "."%string with (PyStr.chr ".").
  rewrite split_join.
  - apply traverse_parse_int.
  - destruct v; [congruence | discriminate].
  - apply Forall_map, Forall_forall. intros n _. apply str_int_free_of_dot.
Qed.

Lemma parse_nonempty (s : string) (v : list N) :
  Release.parse s = Some v -> v <> [].
Proof.
  unfold Release.parse. destruct (PyStr.split "." s) as [|p ps] eqn:E.
  - destruct s as [|c s]; simpl in E; [discriminate|].
    destruct (Ascii.eqb c "."); [discriminate|].
    destruct (PyStr.split "." s); discriminate.
  - simpl. destruct (Release.parse_int p); [|discriminate].
    destruct (Release.traverse Release.parse_int ps); [|discriminate].
    intros [= <-]. discriminate.
Qed.

(** ** Version Comparator: the maximum *)

Lemma release_lt_key (u v w : list N) :
  Release.cmpkey v = Release.cmpkey w -> Release.lt u v = Release.lt u w.
Proof. unfold Release.lt. now intros ->. Qed.

Lemma release_not_lt_trans (u v w : list N) :
  Release.lt u v = false -> Release.lt v w = false -> Release.lt u w = false.
Proof.
  intros Huv Hvw. destruct (Release.lt u w) eqn:Huw; [|reflexivity].
  destruct (release_lt_total v w) as [H|[H|H]].
  - congruence.
  - rewrite (release_lt_trans u w v Huw H) in Huv. discriminate.
  - rewrite (release_lt_key u v w H) in Huv. congruence.
Qed.

Lemma senior_fold_release (vers : list string) :
  forall (senior_ver : list N) (releases : list (list N)),
    map Release.parse vers = map Some releases ->
    exists senior,
      @senior_fold Release senior_ver vers = Ok senior /\
      In senior (senior_ver :: releases) /\
      Forall (fun r => Release.lt senior r = false) (senior_ver :: releases).
Proof.
  induction vers as [|ver vers IH]; intros s0 [|r rs] E; simpl in E; try discriminate.
  - exists s0. split; [reflexivity|]. split; [now left|].
    constructor; [apply release_lt_irrefl | constructor].
  - injection E as Er Ers. simpl. unfold parse; simpl. rewrite Er.
    destruct (IH (if Release.lt s0 r then r else s0) rs Ers) as (w & Hw & Hin & Hub).
    exists w. split; [exact Hw|].
    inversion Hub as [|? ? Hw1 Hrs]; subst.
    destruct (Release.lt s0 r) eqn:Hlt.
    + split.
      * destruct Hin as [<-|Hin]; [right; now left | right; now right].
      * constructor; [|constructor; assumption].
        destruct (Release.lt w s0) eqn:Hws; [|reflexivity].
        rewrite (release_lt_trans w s0 r Hws Hlt) in Hw1. discriminate.
    + split.
      * destruct Hin as [<-|Hin]; [now left | right; now right].
      * constructor; [assumption|]. constructor; [|assumption].
        now apply (release_not_lt_trans w s0 r).
Qed.

(** C2. On a report whose values are dotted numeric strings,
    [determine_senior_version] returns the printed form of a version that is
    the sentinel [0.0] or one of the reported versions and that no reported
    version (nor the sentinel) exceeds; the printed form parses back to that
    version; an empty report gives ["0.0"]. The order compares the release
    numbers component by component as numbers: it is irreflexive, transitive
    and total up to closing zeros, with [1.0.166.1 < 1.0.198.0],
    [1.0 < 1.0.0.1] and [1.0.9 < 1.0.10]. *)
Theorem determine_senior_version_is_maximum
    (model_versions : list (string * string)) (releases : list (list N)) :
  map Release.parse (map snd model_versions) = map Some releases ->
  (exists senior,
     @determine_senior_version Release model_versions = Ok (Release.str senior) /\
     Release.parse (Release.str senior) = Some senior /\
     In senior ([0; 0]%N :: releases) /\
     Forall (fun r => Release.lt senior r = false) ([0; 0]%N :: releases)) /\
  @determine_senior_version Release [] = Ok "0.0" /\
  (forall v, Release.lt v v = false) /\
  (forall u v w, Release.lt u v = true -> Release.lt v w = true -> Release.lt u w = true) /\
  (forall v w, Release.lt v w = true \/ Release.lt w v = true
               \/ Release.cmpkey v = Release.cmpkey w) /\
  (Release.parse "1.0.166.1" = Some [1; 0; 166; 1]%N /\
   Release.parse "1.0.198.0" = Some [1; 0; 198; 0]%N /\
   Release.lt [1; 0; 166; 1]%N [1; 0; 198; 0]%N = true) /\
  Release.lt [1; 0]%N [1; 0; 0; 1]%N = true /\
  Release.lt [1; 0; 9]%N [1; 0; 10]%N = true.
Proof.
  intros E. split.
  - destruct (senior_fold_release (map snd model_versions) [0; 0]%N releases E)
      as (w & Hw & Hin & Hub).
    exists w. split.
    + unfold determine_senior_version.
      change (parse "0.0") with (Some [0; 0]%N). cbv iota beta. now rewrite Hw.
    + split; [|split; assumption].
      apply parse_str. destruct Hin as [<-|Hin]; [discriminate|].
      assert (In (Some w) (map Release.parse (map snd model_versions))) as Hp
          by (rewrite E; now apply in_map).
      apply in_map_iff in Hp as (ver & Hver & _).
      now apply (parse_nonempty ver).
  - split; [reflexivity|].
    split; [exact release_lt_irrefl|].
    split; [exact release_lt_trans|].
    split; [exact release_lt_total|].
    repeat split; reflexivity.
Qed.

Lemma determine_senior_version_is_maximum_witness :
  exists senior,
    @determine_senior_version Release
      [("dh1", "1.0.166.1"); ("dh2", "1.0.198"); ("addin", "1.0.198")]
    = Ok (Release.str senior) /\
    In senior [[0; 0]; [1; 0; 166; 1]; [1; 0; 198]; [1; 0; 198]]%N /\
    Release.lt senior [1; 0; 166; 1]%N = false.
Proof.
  destruct (determine_senior_version_is_maximum
              [("dh1", "1.0.166.1"); ("dh2", "1.0.198"); ("addin", "1.0.198")]
              [[1; 0; 166; 1]; [1; 0; 198]; [1; 0; 198]]%N eq_refl)
    as ((senior & Hret & _ & Hin & Hub) & _).
  exists senior. split; [exact Hret|]. split; [exact Hin|].
  inversion Hub as [|? ? _ Hrest]. inversion Hrest as [|? ? Hfirst _]. exact Hfirst.
Defined.

(** ** Frame rules of the monad *)

Create HintDb frame.

Lemma preserves_ret {A B : Type} (f : state -> B) (a : A) : preserves f (ret a).
Proof. intros st. reflexivity. Qed.

Lemma preserves_raise {A B : Type} (f : state -> B) (e : exn) :
  preserves f (raise (A := A) e).
Proof. intros st. reflexivity. Qed.

Lemma preserves_lift {A B : Type} (f : state -> B) (r : result A) :
  preserves f (lift r).
Proof. intros st. reflexivity. Qed.

Lemma preserves_bind {A A' B : Type} (f : state -> B) (m : M A) (k : A -> M A') :
  preserves f m -> (forall a, preserves f (k a)) -> preserves f (bind m k).
Proof.
  intros Hm Hk st. unfold bind. specialize (Hm st).
  destruct (m st) as [[a|e] st1]; simpl in *; [rewrite Hk|]; exact Hm.
Qed.

Lemma preserves_try {A B : Type} (f : state -> B) (m : M A)
    (handler : exn -> option (M A)) :
  preserves f m -> (forall e h, handler e = Some h -> preserves f h) ->
  preserves f (try_except m handler).
Proof.
  intros Hm Hh st. unfold try_except. specialize (Hm st).
  destruct (m st) as [[a|e] st1]; simpl in *; [exact Hm|].
  destruct (handler e) as [h|] eqn:E; [|exact Hm].
  now rewrite (Hh e h E).
Qed.

Lemma preserves_for_each {X S B : Type} (f : state -> B) (body : S -> X -> M S)
    (xs : list X) :
  (forall s x, preserves f (body s x)) -> forall s, preserves f (for_each body xs s).
Proof.
  intros Hb. induction xs as [|x xs IH]; intros s; simpl.
  - apply preserves_ret.
  - apply preserves_bind; [apply Hb | exact IH].
Qed.

#[export] Hint Resolve preserves_ret preserves_raise preserves_lift : frame.

Lemma http_get_ledger env url stream : preserves ledger (http_get env url stream).
Proof. intros st. reflexivity. Qed.

Lemma http_get_folder env url stream : preserves folder (http_get env url stream).
Proof. intros st. reflexivity. Qed.

Lemma http_get_stdout env url stream : preserves stdout (http_get env url stream).
Proof. intros st. reflexivity. Qed.

Lemma print_log_message_ledger msg : preserves ledger (print_log_message msg).
Proof. intros st. destruct msg; reflexivity. Qed.

Lemma print_log_message_folder msg : preserves folder (print_log_message msg).
Proof. intros st. destruct msg; reflexivity. Qed.

Lemma print_log_message_requests msg : preserves requests (print_log_message msg).
Proof. intros st. destruct msg; reflexivity. Qed.

Lemma write_file_ledger env name content :
  spares_ledger env -> preserves ledger (write_file env name content).
Proof.
  intros Hspares st. unfold write_file.
  destruct (open_wb env name) as [[|path]|e] eqn:E; [|reflexivity|reflexivity].
  exfalso. exact (Hspares name E).
Qed.

Lemma write_file_requests env name content :
  preserves requests (write_file env name content).
Proof. intros st. unfold write_file. now destruct (open_wb env name) as [[|path]|e]. Qed.

Lemma write_file_stdout env name content :
  preserves stdout (write_file env name content).
Proof. intros st. unfold write_file. now destruct (open_wb env name) as [[|path]|e]. Qed.

#[export] Hint Resolve http_get_ledger http_get_folder http_get_stdout
  print_log_message_ledger print_log_message_folder print_log_message_requests
  write_file_ledger write_file_requests write_file_stdout : frame.

Lemma preserves_keeps {A : Type} (m : M A) :
  preserves ledger m -> keeps ledger_exists m.
Proof. intros Hm st H. unfold ledger_exists. now rewrite Hm. Qed.

Lemma keeps_bind {A A' : Type} (P : state -> Prop) (m : M A) (k : A -> M A') :
  keeps P m -> (forall a, keeps P (k a)) -> keeps P (bind m k).
Proof.
  intros Hm Hk st H. unfold bind. specialize (Hm st H).
  destruct (m st) as [[a|e] st1]; simpl in *; [now apply Hk|exact Hm].
Qed.

Lemma keeps_try {A : Type} (P : state -> Prop) (m : M A)
    (handler : exn -> option (M A)) :
  keeps P m -> (forall e h, handler e = Some h -> keeps P h) ->
  keeps P (try_except m handler).
Proof.
  intros Hm Hh st H. unfold try_except. specialize (Hm st H).
  destruct (m st) as [[a|e] st1]; simpl in *; [exact Hm|].
  destruct (handler e) as [h|] eqn:E; [|exact Hm].
  now apply (Hh e h E).
Qed.

Lemma keeps_for_each {X S : Type} (P : state -> Prop) (body : S -> X -> M S)
    (xs : list X) :
  (forall s x, keeps P (body s x)) -> forall s, keeps P (for_each body xs s).
Proof.
  intros Hb. induction xs as [|x xs IH]; intros s; simpl.
  - now intros st H.
  - apply keeps_bind; [apply Hb | exact IH].
Qed.

(** Whatever the download opens, a ledger file that was there is there
    afterwards. *)
Lemma write_file_ledger_exists env name content :
  keeps ledger_exists (write_file env name content).
Proof.
  intros st H. unfold write_file.
  destruct (open_wb env name) as [[|path]|e]; [discriminate|exact H|exact H].
Qed.

(** Walks through a computation, one frame rule at a time. *)
Ltac frame_step :=
  first
    [ solve [auto with frame]
    | apply preserves_bind; [|intros ?]
    | apply preserves_try;
      [|let e := fresh "e" in let h := fresh "h" in let E := fresh "E" in
        intros e h E; destruct e; try discriminate E; injection E as <-]
    | match goal with
      | |- preserves _ (match ?x with _ => _ end) => destruct x
      end ].

Ltac frame := repeat frame_step.

Section ProgramFrames.

Context {packaging : PackagingVersion}.
Variable env : environment.
Variable cfg : config.
Variable schema : json.

Lemma poll_endpoint_ledger field mv name url :
  preserves ledger (poll_endpoint env schema field mv name url).
Proof. unfold poll_endpoint. frame. Qed.

Lemma poll_endpoint_folder field mv name url :
  preserves folder (poll_endpoint env schema field mv name url).
Proof. unfold poll_endpoint. frame. Qed.

Lemma poll_step_ledger field acc item :
  preserves ledger (poll_step env schema field acc item).
Proof.
  destruct acc, item. unfold poll_step.
  pose proof poll_endpoint_ledger. frame.
Qed.

Lemma poll_step_folder field acc item :
  preserves folder (poll_step env schema field acc item).
Proof.
  destruct acc, item. unfold poll_step.
  pose proof poll_endpoint_folder. frame.
Qed.

Lemma get_mv_from_urls_ledger field :
  preserves ledger (get_mv_from_urls env cfg schema field).
Proof. apply preserves_for_each. intros. apply poll_step_ledger. Qed.

Lemma get_mv_from_urls_folder field :
  preserves folder (get_mv_from_urls env cfg schema field).
Proof. apply preserves_for_each. intros. apply poll_step_folder. Qed.




Lemma fetch_package_ledger_exists url :
  keeps ledger_exists (fetch_package env cfg url).
Proof.
  unfold fetch_package.
  apply keeps_bind; [apply preserves_keeps, http_get_ledger|intros r].
  apply keeps_bind; [apply preserves_keeps, preserves_lift|intros _].
  apply keeps_bind; [apply preserves_keeps, preserves_lift|intros d].
  destruct (nth_error (PyStr.split "=" d) 1) as [name|];
    [|apply preserves_keeps, preserves_raise].
  apply keeps_bind; [apply write_file_ledger_exists|intros _].
  destruct (body_failure r); apply preserves_keeps; auto with frame.
Qed.

Lemma download_step_ledger_exists v code item :
  keeps ledger_exists (download_step env cfg v code item).
Proof.
  destruct item as [name url]. unfold download_step.
  apply keeps_bind.
  - apply keeps_try.
    + apply keeps_bind; [apply fetch_package_ledger_exists|intros _].
      apply preserves_keeps, preserves_ret.
    + intros e h E. destruct e; try discriminate E. injection E as <-.
      apply preserves_keeps, preserves_ret.
  - intros r. apply keeps_bind; [apply preserves_keeps, print_log_message_ledger|intros _].
    apply preserves_keeps, preserves_ret.
Qed.

Lemma download_ledger_exists v :
  keeps ledger_exists (download_nuurls_with_model_package env cfg cfg v).
Proof. apply keeps_for_each. intros. apply download_step_ledger_exists. Qed.

End ProgramFrames.

(** ** The requests of the polling phase *)

Lemma adds_bind_l {A A' : Type} (rs : list request) (m : M A) (k : A -> M A') :
  adds rs m -> (forall a, preserves requests (k a)) -> adds rs (bind m k).
Proof.
  intros Hm Hk st. unfold bind. specialize (Hm st).
  destruct (m st) as [[a|e] st1]; simpl in *; [rewrite Hk|]; exact Hm.
Qed.

Lemma adds_try {A : Type} (rs : list request) (m : M A)
    (handler : exn -> option (M A)) :
  adds rs m -> (forall e h, handler e = Some h -> preserves requests h) ->
  adds rs (try_except m handler).
Proof.
  intros Hm Hh st. unfold try_except. specialize (Hm st).
  destruct (m st) as [[a|e] st1]; simpl in *; [exact Hm|].
  destruct (handler e) as [h|] eqn:E; [|exact Hm].
  now rewrite (Hh e h E).
Qed.

Lemma adds_http_get env url stream :
  adds [{| req_url := url; req_stream := stream |}] (http_get env url stream).
Proof. intros st. reflexivity. Qed.

Lemma for_each_adds {X S : Type} (g : X -> request) (body : S -> X -> M S) :
  (forall s x, adds [g x] (body s x)) ->
  forall xs s st r st',
    for_each body xs s st = (Ok r, st') ->
    requests st' = (requests st ++ map g xs)%list.
Proof.
  intros Hb. induction xs as [|x xs IH]; intros s st r st' E; simpl in E.
  - injection E as _ <-. now rewrite List.app_nil_r.
  - unfold bind in E. pose proof (Hb s x st) as Hx.
    destruct (body s x st) as [[s1|e] st1]; [|discriminate E].
    simpl in Hx. rewrite (IH _ _ _ _ E), Hx, <- List.app_assoc. reflexivity.
Qed.

Section Polling.

Context {packaging : PackagingVersion}.
Variable env : environment.
Variable cfg : config.
Variable schema : json.

Lemma poll_step_adds field acc item :
  adds [poll_request item] (poll_step env schema field acc item).
Proof.
  destruct acc as [mv names], item as [name url]. unfold poll_step.
  apply adds_bind_l.
  - apply adds_try.
    + unfold poll_endpoint. apply adds_bind_l; [apply adds_http_get|].
      intros r. frame.
    + intros e h E. destruct e; try discriminate E. injection E as <-. frame.
  - intros r. frame.
Qed.

Lemma poll_step_names field mv names item st mv' names' st' :
  poll_step env schema field (mv, names) item st = (Ok (mv', names'), st') ->
  names' = (names ++ [fst item])%list.
Proof.
  destruct item as [name url]. unfold poll_step, bind.
  destruct (try_except _ _ st) as [[r|e] st1]; [|discriminate].
  destruct (print_log_message _ st1) as [[u|e] st2]; [|discriminate].
  unfold ret. now intros [= _ <- _].
Qed.

Lemma for_each_poll_names field items :
  forall mv names st mv' names' st',
    for_each (poll_step env schema field) items (mv, names) st
    = (Ok (mv', names'), st') ->
    names' = (names ++ map fst items)%list.
Proof.
  induction items as [|item items IH]; intros mv names st mv' names' st' E;
    cbn [for_each] in E.
  - unfold ret in E. injection E as _ <- _. now rewrite List.app_nil_r.
  - unfold bind in E.
    destruct (poll_step env schema field (mv, names) item st)
      as [[[mv1 names1]|e] st1] eqn:E1; [|discriminate E].
    apply poll_step_names in E1. apply IH in E. subst.
    now rewrite <- List.app_assoc.
Qed.

(** When the polling phase returns, it has asked every version-check
    endpoint once, in the order of the configuration, and nothing else; it
    reports the names of all of them; the ledger and the output folder are
    as before. *)
Lemma get_mv_from_urls_returns field st models names st1 :
  get_mv_from_urls env cfg schema field st = (Ok (models, names), st1) ->
  names = map fst (urls_with_model_version cfg) /\
  requests st1 = (requests st ++ map poll_request (urls_with_model_version cfg))%list /\
  ledger st1 = ledger st /\
  folder st1 = folder st.
Proof.
  intros E. split; [|split; [|split]].
  - exact (for_each_poll_names _ _ _ _ _ _ _ _ E).
  - exact (for_each_adds poll_request _ (poll_step_adds field) _ _ _ _ _ E).
  - pose proof (get_mv_from_urls_ledger env cfg schema field st) as H.
    now rewrite E in H.
  - pose proof (get_mv_from_urls_folder env cfg schema field st) as H.
    now rewrite E in H.
Qed.

(** The run of [main], phase by phase. *)
Lemma main_run st :
  main env cfg schema st =
  match get_mv_from_urls env cfg schema "modelsVersion" st with
  | (Raise e, st1) => (Raise e, st1)
  | (Ok ([], names), st1) =>
      (Ok tt, mkState (ledger st1) (folder st1)
                      (stdout st1 ++ [no_version_line names; nothing_downloaded_line])
                      (requests st1))
  | (Ok (models, names), st1) =>
      match determine_senior_version models with
      | Raise e => (Raise e, st1)
      | Ok v =>
          if contains v (initialised st1) then (Ok tt, initialised st1)
          else
            match download_nuurls_with_model_package env cfg cfg v (initialised st1) with
            | (Ok 0, st3) => update_downloaded_mv_in_file v st3
            | (Ok (S _), st3) => (Ok tt, st3)
            | (Raise e, st3) => (Raise e, st3)
            end
      end
  end.
Proof.
  unfold main, bind.
  destruct (get_mv_from_urls env cfg schema "modelsVersion" st)
    as [[[[|m models] names]|e] st1]; try reflexivity.
  - unfold print_log_message, bind, lift, print. simpl. now rewrite <- List.app_assoc.
  - unfold lift at 1.
    destruct (determine_senior_version (m :: models)) as [v|e]; [|reflexivity].
    unfold path_exists, initialised, contains, ledger_content,
      has_model_already_been_downloaded, create_empty_file.
    destruct (ledger st1) as [content|] eqn:El; simpl; rewrite ?El.
    + destruct (existsb _ _); simpl; [reflexivity|].
      destruct (download_nuurls_with_model_package env cfg cfg v st1)
        as [[[|code]|e] st3]; reflexivity.
    + simpl. destruct (download_nuurls_with_model_package _ _ _ _ _)
        as [[[|code]|e] st3]; reflexivity.
Qed.

End Polling.

(** ** The orchestrator *)

Section Orchestrator.

Context {packaging : PackagingVersion}.
Variable env : environment.
Variable cfg : config.
Variable schema : json.


Lemma initialised_content st : ledger_content (initialised st) = ledger_content st.
Proof.
  unfold initialised, ledger_content.
  destruct (ledger st) eqn:E; simpl; rewrite ?E; reflexivity.
Qed.

Lemma initialised_exists st : ledger (initialised st) <> None.
Proof. unfold initialised. destruct (ledger st) eqn:E; simpl; congruence. Qed.

Lemma ledger_content_eq st st' : ledger st' = ledger st -> ledger_content st' = ledger_content st.
Proof. unfold ledger_content. now intros ->. Qed.



End Orchestrator.

(** ** Printed versions have no line terminator *)




(** ** The claims about a run *)






(** C6. When polling returns an empty report, the run ends normally; it has
    printed, after the lines of the polling, an error naming every
    version-check endpoint and then the notice that nothing was downloaded;
    the only requests made are the version checks; the ledger is as it was
    (a missing file is still missing) and nothing was written. *)
Theorem empty_report_is_clean_stop {packaging : PackagingVersion}
    (env : environment) (cfg : config) (schema : json)
    (st st1 : state) (names : list string) :
  get_mv_from_urls env cfg schema "modelsVersion" st = (Ok ([], names), st1) ->
  main env cfg schema st
  = (Ok tt,
     mkState (ledger st) (folder st)
       (stdout st1 ++ [no_version_line (map fst (urls_with_model_version cfg));
                       nothing_downloaded_line])
       (requests st ++ map poll_request (urls_with_model_version cfg))).
Proof.
  intros E. rewrite main_run, E.
  destruct (get_mv_from_urls_returns env cfg schema _ _ _ _ _ E) as (-> & -> & -> & ->).
  reflexivity.
Qed.

Lemma empty_report_is_clean_stop_witness :
  main (packaging := Release) Sample.garbled Sample.cfg JNull initial_state
  = (Ok tt,
     mkState None []
       [ {| line_type := Warning; line_url_name := Some "dh1";
            line_text := MsgUrl "JSON did not loaded from URL: " (Some "https://dh1/ping") |};
         {| line_type := Warning; line_url_name := Some "dh2";
            line_text := Msg "JSON is not valid" |};
         no_version_line ["dh1"; "dh2"];
         nothing_downloaded_line ]
       [ {| req_url := "https://dh1/ping"; req_stream := false |};
         {| req_url := "https://dh2/ping2"; req_stream := false |} ]).
Proof.
  apply (empty_report_is_clean_stop (packaging := Release)
           Sample.garbled Sample.cfg JNull initial_state
           (mkState None []
              [ {| line_type := Warning; line_url_name := Some "dh1";
                   line_text := MsgUrl "JSON did not loaded from URL: "
                                  (Some "https://dh1/ping") |};
                {| line_type := Warning; line_url_name := Some "dh2";
                   line_text := Msg "JSON is not valid" |} ]
              [ {| req_url := "https://dh1/ping"; req_stream := false |};
                {| req_url := "https://dh2/ping2"; req_stream := false |} ])
           ["dh1"; "dh2"]).
  vm_compute. reflexivity.
Defined.

(** C5. When the ledger already lists the resolved version, the run ends
    normally in the state the polling left: no request besides the version
    checks, nothing printed after the polling, nothing written, the ledger
    as it was. *)
Theorem already_downloaded_is_noop {packaging : PackagingVersion}
    (env : environment) (cfg : config) (schema : json)
    (st st1 : state) (models : list (string * string)) (names : list string)
    (v : string) :
  get_mv_from_urls env cfg schema "modelsVersion" st = (Ok (models, names), st1) ->
  models <> [] ->
  determine_senior_version models = Ok v ->
  fst (has_model_already_been_downloaded v st) = Ok true ->
  main env cfg schema st = (Ok tt, st1) /\
  ledger st1 = ledger st /\
  folder st1 = folder st /\
  requests st1 = (requests st ++ map poll_request (urls_with_model_version cfg))%list.
Proof.
  intros E Hm Hv Hin.
  destruct (get_mv_from_urls_returns env cfg schema _ _ _ _ _ E) as (_ & Hr & Hl & Hf).
  split; [|now repeat split].
  rewrite main_run, E. destruct models as [|m models]; [congruence|]. rewrite Hv.
  unfold has_model_already_been_downloaded in Hin.
  destruct (ledger st) as [content|] eqn:Ec; simpl in Hin; [|discriminate Hin].
  injection Hin as Hin. try rewrite Ec in Hl.
  assert (initialised st1 = st1) as -> by (unfold initialised; now rewrite Hl).
  unfold contains, ledger_content. now rewrite Hl, Hin.
Qed.

Lemma already_downloaded_is_noop_witness :
  fst (main (packaging := Release) Sample.healthy Sample.cfg JNull Sample.listed) = Ok tt /\
  ledger (snd (main (packaging := Release) Sample.healthy Sample.cfg JNull Sample.listed))
  = ledger Sample.listed /\
  requests (snd (main (packaging := Release) Sample.healthy Sample.cfg JNull Sample.listed))
  = [ {| req_url := "https://dh1/ping"; req_stream := false |};
      {| req_url := "https://dh2/ping2"; req_stream := false |} ].
Proof.
  destruct (already_downloaded_is_noop (packaging := Release)
              Sample.healthy Sample.cfg JNull Sample.listed
              (snd (get_mv_from_urls Sample.healthy Sample.cfg JNull "modelsVersion"
                      Sample.listed))
              [("dh1", "1.0.166.1"); ("dh2", "1.0.198")] ["dh1"; "dh2"] "1.0.198")
    as (Hmain & Hl & _ & Hr).
  - vm_compute. reflexivity.
  - discriminate.
  - vm_compute. reflexivity.
  - vm_compute. reflexivity.
  - rewrite Hmain. simpl fst. simpl snd. split; [reflexivity|].
    split; [exact Hl | exact Hr].
Defined.

(** C9. With no package endpoint configured, the fetcher asks nothing and
    returns 0, whatever the version; so a run whose resolved version is not
    in the ledger appends it, having made only the version checks and
    written no file. *)
Theorem no_package_endpoint_still_records {packaging : PackagingVersion}
    (env : environment) (cfg : config) (schema : json) :
  urls_with_model_package cfg = [] ->
  (forall v st, download_nuurls_with_model_package env cfg cfg v st = (Ok 0, st)) /\
  (forall st st1 models names v,
     get_mv_from_urls env cfg schema "modelsVersion" st = (Ok (models, names), st1) ->
     models <> [] ->
     determine_senior_version models = Ok v ->
     contains v st = false ->
     main env cfg schema st
     = (Ok tt,
        mkState (Some (ledger_content st ++ string_pattern v)) (folder st) (stdout st1)
                (requests st ++ map poll_request (urls_with_model_version cfg)))).
Proof.
  intros Hnone.
  assert (forall v st, download_nuurls_with_model_package env cfg cfg v st = (Ok 0, st))
    as Hd by (intros v st; unfold download_nuurls_with_model_package; now rewrite Hnone).
  split; [exact Hd|].
  intros st st1 models names v E Hm Hv Hnot.
  destruct (get_mv_from_urls_returns env cfg schema _ _ _ _ _ E) as (_ & Hr & Hl & Hf).
  rewrite main_run, E. destruct models as [|m models]; [congruence|]. rewrite Hv.
  assert (contains v (initialised st1) = false) as ->.
  { unfold contains in *. rewrite initialised_content.
    now rewrite (ledger_content_eq st st1 Hl). }
  rewrite Hd. unfold update_downloaded_mv_in_file. f_equal.
  pose proof (initialised_content st1) as Hc.
  rewrite (ledger_content_eq st st1 Hl) in Hc.
  unfold ledger_content at 1 in Hc.
  pose proof (initialised_exists st1) as Hex.
  destruct (ledger (initialised st1)) as [content|] eqn:Ei; [|congruence].
  subst content. rewrite <- Hr, <- Hf.
  unfold initialised. destruct (ledger st1); reflexivity.
Qed.

Lemma no_package_endpoint_still_records_witness :
  main (packaging := Release) Sample.healthy Sample.cfg_no_package JNull initial_state
  = (Ok tt,
     mkState (Some (unlines ["1.0.198 "])) []
       [ {| line_type := Info; line_url_name := Some "dh1";
            line_text := Msg "JSON was decode" |};
         {| line_type := Info; line_url_name := Some "dh2";
            line_text := Msg "JSON was decode" |} ]
       [ {| req_url := "https://dh1/ping"; req_stream := false |};
         {| req_url := "https://dh2/ping2"; req_stream := false |} ]).
Proof.
  destruct (no_package_endpoint_still_records (packaging := Release)
              Sample.healthy Sample.cfg_no_package JNull eq_refl) as [_ Hrun].
  rewrite (Hrun initial_state
             (snd (get_mv_from_urls Sample.healthy Sample.cfg_no_package JNull
                     "modelsVersion" initial_state))
             [("dh1", "1.0.166.1"); ("dh2", "1.0.198")] ["dh1"; "dh2"] "1.0.198").
  - vm_compute. reflexivity.
  - vm_compute. reflexivity.
  - discriminate.
  - vm_compute. reflexivity.
  - vm_compute. reflexivity.
Defined.

(** ** Package Fetcher: the status *)

Section Fetcher.

Context {packaging : PackagingVersion}.
Variable env : environment.
Variable cfg : config.
Variable schema : json.





Lemma for_each_cons {X S : Type} (body : S -> X -> M S) x xs s st :
  for_each body (x :: xs) s st
  = match body s x st with
    | (Ok s1, st1) => for_each body xs s1 st1
    | (Raise e, st1) => (Raise e, st1)
    end.
Proof. reflexivity. Qed.





End Fetcher.




(** The partial failure of the samples and its retry: with one of two
    package endpoints answering with an error status the ledger is created
    and stays empty; the next run, with both delivering, appends the
    version. *)
Example partial_failure_then_retry :
  let first := main (packaging := Release) Sample.partial Sample.cfg JNull initial_state in
  let second := main (packaging := Release) Sample.healthy Sample.cfg JNull (snd first) in
  fst first = Ok tt /\ ledger (snd first) = Some EmptyString /\
  fst second = Ok tt /\ ledger (snd second) = Some (unlines ["1.0.198 "]) /\
  map fst (folder (snd second)) = ["packages/pkg.nupkg"].
Proof. vm_compute. repeat split; reflexivity. Qed.

(** ** Failures that are absorbed, and one that is not *)

Section Absorbed.

Context {packaging : PackagingVersion}.
Variable env : environment.
Variable cfg : config.
Variable schema : json.

Lemma dict_set_parsable report key value :
  parsable report -> parse value <> None -> parsable (dict_set report key value).
Proof.
  unfold parsable. induction 1 as [|[k v] report Hk Hrest IH]; intros Hv; simpl.
  - constructor; [exact Hv | constructor].
  - destruct (String.eqb k key); constructor; auto.
Qed.

Lemma poll_step_absorbed report names name url st :
  poll_absorbed env schema url -> parsable report ->
  exists report' names' st',
    poll_step env schema "modelsVersion" (report, names) (name, url) st
    = (Ok (report', names'), st') /\
    parsable report' /\
    stdout st' = (stdout st ++ [poll_line env schema (name, url)])%list.
Proof.
  intros (r & Hr & Hbody) Hrep.
  unfold poll_line, poll_step, bind, try_except, poll_endpoint, bind, http_get, lift,
    raise, is_json_valid, print_log_message, bind, lift, print, ret.
  cbn beta iota. cbn [fst snd]. rewrite Hr.
  destruct (json_loads env (text r)) as [parsed|e].
  - destruct Hbody as [Hbad|(Hgood & s & Hs & Hp)].
    + rewrite Hbad. cbn.
      do 3 eexists. split; [reflexivity|]. split; [exact Hrep | reflexivity].
    + rewrite Hgood. cbn beta iota. rewrite Hs. cbn.
      do 3 eexists. split; [reflexivity|]. split; [|reflexivity].
      now apply dict_set_parsable.
  - subst e. cbn.
    do 3 eexists. split; [reflexivity|]. split; [exact Hrep | reflexivity].
Qed.

Lemma get_mv_from_urls_absorbed items :
  Forall (fun item => poll_absorbed env schema (snd item)) items ->
  forall report names st,
    parsable report ->
    exists report' names' st',
      for_each (poll_step env schema "modelsVersion") items (report, names) st
      = (Ok (report', names'), st') /\
      parsable report' /\
      stdout st' = (stdout st ++ map (poll_line env schema) items)%list.
Proof.
  induction 1 as [|[name url] items Hitem _ IH]; intros report names st Hrep.
  - do 3 eexists. split; [reflexivity|]. split; [exact Hrep|].
    simpl. now rewrite List.app_nil_r.
  - destruct (poll_step_absorbed report names name url st Hitem Hrep)
      as (report1 & names1 & st1 & E1 & Hrep1 & Hout1).
    destruct (IH report1 names1 st1 Hrep1) as (report2 & names2 & st2 & E2 & Hrep2 & Hout2).
    exists report2, names2, st2. rewrite for_each_cons, E1.
    split; [exact E2|]. split; [exact Hrep2|].
    rewrite Hout2, Hout1, <- List.app_assoc. reflexivity.
Qed.



Lemma fetch_package_stdout url : preserves stdout (fetch_package env cfg url).
Proof. unfold fetch_package. pose proof write_file_stdout. frame. Qed.




End Absorbed.





(** * Further properties of the code *)

(** ** [add_closing_slash] *)

Lemma add_closing_slash_cases (url_path : string) :
  (PyStr.ends_with "/" url_path /\ add_closing_slash url_path = url_path) \/
  (~ PyStr.ends_with "/" url_path /\ add_closing_slash url_path = url_path ++ "/").
Proof.
  unfold add_closing_slash.
  destruct (String.eqb_spec (PyStr.tail 1 url_path) "/") as [E|E]; simpl.
  - left. split; [|reflexivity]. exists (PyStr.drop_tail 1 url_path).
    now rewrite <- E, drop_tail_tail.
  - right. split; [|reflexivity]. intros [p ->]. apply E. exact (tail_app p "/").
Qed.

(** X1. [add_closing_slash] returns a path that ends with a slash and is
    idempotent: a path that ends with a slash (also with several) is
    returned as it is, any other path (the empty one too) gets one slash
    appended. So the URL asked of a package endpoint always ends with a
    slash followed by the version. *)
Theorem add_closing_slash_spec (url_path : string) :
  PyStr.ends_with "/" (add_closing_slash url_path) /\
  add_closing_slash (add_closing_slash url_path) = add_closing_slash url_path /\
  (PyStr.ends_with "/" url_path -> add_closing_slash url_path = url_path) /\
  (~ PyStr.ends_with "/" url_path -> add_closing_slash url_path = url_path ++ "/") /\
  (forall name v, PyStr.ends_with ("/" ++ v) (package_url v (name, url_path))).
Proof.
  assert (PyStr.ends_with "/" (add_closing_slash url_path)) as Hends.
  { destruct (add_closing_slash_cases url_path) as [[H ->]|[_ ->]];
      [exact H | now exists url_path]. }
  split; [exact Hends|]. split; [|split; [|split]]; cycle 3.
  - intros name v. unfold package_url. simpl snd. destruct Hends as [p ->].
    exists p. now rewrite append_assoc.
  - destruct (add_closing_slash_cases (add_closing_slash url_path)) as [[_ E]|[H _]];
      [exact E | contradiction].
  - intros H. destruct (add_closing_slash_cases url_path) as [[_ E]|[Hn _]];
      [exact E | contradiction].
  - intros H. destruct (add_closing_slash_cases url_path) as [[Hy _]|[_ E]];
      [contradiction | exact E].
Qed.

(** ** Normalisation and the order of versions *)

Lemma split_app_sep (sep : ascii) (p q : string) :
  PyStr.split sep (p ++ String sep q) = (PyStr.split sep p ++ PyStr.split sep q)%list.
Proof.
  induction p as [|c p IH]; simpl.
  - now rewrite Ascii.eqb_refl.
  - destruct (Ascii.eqb c sep); rewrite IH; [reflexivity|].
    destruct (PyStr.split sep p) as [|x xs] eqn:E; [|reflexivity].
    exfalso. destruct p as [|d p]; simpl in E; [discriminate|].
    destruct (Ascii.eqb d sep); [discriminate|].
    destruct (PyStr.split sep p); discriminate.
Qed.

Lemma traverse_app_inv {A B : Type} (f : A -> option B) (a b : list A) (r : list B) :
  Release.traverse f (a ++ b) = Some r ->
  exists ra rb, Release.traverse f a = Some ra /\ Release.traverse f b = Some rb /\
                r = (ra ++ rb)%list.
Proof.
  revert r; induction a as [|x a IH]; intros r H; simpl in *.
  - exists [], r. now repeat split.
  - destruct (f x) as [y|]; [|discriminate].
    destruct (Release.traverse f (a ++ b)) as [ys|] eqn:E; [|discriminate].
    injection H as <-. destruct (IH ys eq_refl) as (ra & rb & -> & Hb & ->).
    exists (y :: ra), rb. now repeat split.
Qed.

Lemma cmpkey_closing_zero (r : list N) :
  Release.cmpkey (r ++ [0%N]) = Release.cmpkey r.
Proof. unfold Release.cmpkey. now rewrite rev_app_distr. Qed.

(** X2. Normalising a dotted numeric version string keeps it a version and
    keeps its place in the order: the normalised string parses, and its
    version compares with every version as the original does. *)
Theorem delete_closing_zero_keeps_order (s : string) (r : list N) :
  Release.parse s = Some r ->
  exists r',
    Release.parse (delete_closing_zero s) = Some r' /\
    Release.cmpkey r' = Release.cmpkey r /\
    (forall x, Release.lt r' x = Release.lt r x) /\
    (forall x, Release.lt x r' = Release.lt x r).
Proof.
  intros Hs.
  assert (exists r', Release.parse (delete_closing_zero s) = Some r' /\
                     Release.cmpkey r' = Release.cmpkey r) as (r' & Hp & Hk).
  { destruct (delete_closing_zero_cases s) as [(p & -> & ->)|[_ ->]];
      [|now exists r].
    unfold Release.parse in *.
    change (p ++ ".0") with (p ++ String "." "0") in Hs.
    rewrite split_app_sep in Hs.
    apply traverse_app_inv in Hs as (ra & rb & Ha & Hb & ->).
    injection Hb as <-. exists ra. split; [exact Ha|].
    symmetry. apply cmpkey_closing_zero. }
  exists r'. split; [exact Hp|]. split; [exact Hk|].
  unfold Release.lt. rewrite Hk. now split.
Qed.

Lemma delete_closing_zero_keeps_order_witness :
  exists r',
    Release.parse (delete_closing_zero "1.0.198.0") = Some r' /\
    Release.cmpkey r' = Release.cmpkey [1; 0; 198; 0]%N.
Proof.
  destruct (delete_closing_zero_keeps_order "1.0.198.0" [1; 0; 198; 0]%N eq_refl)
    as (r' & Hp & Hk & _).
  exists r'. now split.
Defined.

(** ** [determine_senior_version]: failure, and the order of the report *)

From Stdlib Require Import Permutation.

Lemma senior_fold_fails {packaging : PackagingVersion} (versions : list string) :
  forall senior_ver,
    (forall e, senior_fold senior_ver versions = Raise e -> e = InvalidVersion) /\
    (senior_fold senior_ver versions = Raise InvalidVersion
     <-> Exists (fun ver => parse ver = None) versions).
Proof.
  induction versions as [|ver versions IH]; intros s0; simpl.
  - split; [discriminate|]. split; [discriminate | intros H; inversion H].
  - destruct (parse ver) as [v|] eqn:E.
    + destruct (IH (if version_lt s0 v then v else s0)) as [H1 H2].
      split; [exact H1|]. rewrite H2. split.
      * intros H. now apply Exists_cons_tl.
      * intros H. inversion H as [? ? Hv|? ? Hr]; subst; [congruence | exact Hr].
    + split; [now intros e [= <-]|]. split; [intros _|reflexivity].
      now apply Exists_cons_hd.
Qed.

(** X3. When the library accepts the sentinel, [determine_senior_version]
    fails exactly when some version of the report is not accepted by the
    library, wherever it stands and however small the others make it, and
    then with [InvalidVersion]; it fails in no other way. *)
Theorem determine_senior_version_fails_iff {packaging : PackagingVersion}
    (model_versions : list (string * string)) :
  parse "0.0" <> None ->
  (determine_senior_version model_versions = Raise InvalidVersion
   <-> Exists (fun entry => parse (snd entry) = None) model_versions) /\
  (forall e, determine_senior_version model_versions = Raise e -> e = InvalidVersion).
Proof.
  intros H0. unfold determine_senior_version.
  destruct (parse "0.0") as [s0|]; [|congruence].
  destruct (senior_fold_fails (map snd model_versions) s0) as [H1 H2].
  rewrite Exists_map in H2.
  destruct (senior_fold s0 (map snd model_versions)) as [w|e] eqn:E.
  - split; [|discriminate]. split; [discriminate|].
    intros H. apply H2 in H. discriminate H.
  - pose proof (H1 e eq_refl) as ->. split; [|now intros e [= <-]].
    split; [intros _; now apply H2 | reflexivity].
Qed.

Lemma determine_senior_version_fails_iff_witness :
  @determine_senior_version Release [("dh1", "9.9"); ("dh2", "unknown"); ("addin", "0.1")]
  = Raise InvalidVersion.
Proof.
  apply (determine_senior_version_fails_iff (packaging := Release)).
  - discriminate.
  - apply Exists_cons_tl, Exists_cons_hd. reflexivity.
Defined.

(** X4. On dotted numeric strings the resolved version does not depend on
    the order of the report: two reports with the same entries in another
    order resolve to versions that compare equal (they can differ in closing
    zeros only). *)
Theorem determine_senior_version_order_independent
    (report report' : list (string * string)) (releases : list (list N)) :
  Permutation report report' ->
  map Release.parse (map snd report) = map Some releases ->
  exists w w',
    @determine_senior_version Release report = Ok (Release.str w) /\
    @determine_senior_version Release report' = Ok (Release.str w') /\
    Release.cmpkey w = Release.cmpkey w'.
Proof.
  intros Hperm E.
  assert (Permutation (map Some releases) (map Release.parse (map snd report'))) as Hp.
  { rewrite <- E. now do 2 apply Permutation_map. }
  apply Permutation_sym, Permutation_map_inv in Hp as (releases' & E' & Hperm').
  destruct (senior_fold_release (map snd report) [0; 0]%N releases E)
    as (w & Hw & Hin & Hub).
  destruct (senior_fold_release (map snd report') [0; 0]%N releases' E')
    as (w' & Hw' & Hin' & Hub').
  exists w, w'. unfold determine_senior_version.
  change (parse "0.0") with (Some [0; 0]%N). cbv iota beta. rewrite Hw, Hw'.
  split; [reflexivity|]. split; [reflexivity|].
  assert (Permutation ([0; 0]%N :: releases) ([0; 0]%N :: releases')) as Hall
      by (constructor; now apply Permutation_sym).
  rewrite Forall_forall in Hub, Hub'.
  pose proof (Hub w' (Permutation_in _ (Permutation_sym Hall) Hin')) as H1.
  pose proof (Hub' w (Permutation_in _ Hall Hin)) as H2.
  destruct (release_lt_total w w') as [H|[H|H]]; [congruence | congruence | exact H].
Qed.

Lemma determine_senior_version_order_independent_witness :
  exists w w',
    @determine_senior_version Release [("dh1", "1.0.166.1"); ("dh2", "1.0.198")]
    = Ok (Release.str w) /\
    @determine_senior_version Release [("dh2", "1.0.198"); ("dh1", "1.0.166.1")]
    = Ok (Release.str w') /\
    Release.cmpkey w = Release.cmpkey w'.
Proof.
  apply (determine_senior_version_order_independent
           [("dh1", "1.0.166.1"); ("dh2", "1.0.198")]
           [("dh2", "1.0.198"); ("dh1", "1.0.166.1")]
           [[1; 0; 166; 1]; [1; 0; 198]]%N).
  - apply perm_swap.
  - reflexivity.
Defined.

(** ** History Store: what an append leaves alone *)

(** X5. On a ledger that is a sequence of lines, appending a version without
    line terminator adds exactly one line at the end, also when the version
    is already listed (the store does not deduplicate), and does not change
    whether any other version is listed. *)
Theorem append_leaves_other_versions (st : state) (lines : list string) (v : string) :
  ledger st = Some (unlines lines) ->
  Forall PyStr.no_line_break lines ->
  PyStr.no_line_break v ->
  readlines (ledger_content (snd (update_downloaded_mv_in_file v st)))
  = (readlines (ledger_content st) ++ [string_pattern v])%list /\
  (forall w, w <> v ->
     fst (has_model_already_been_downloaded w (snd (update_downloaded_mv_in_file v st)))
     = fst (has_model_already_been_downloaded w st)).
Proof.
  intros E Hlines Hv.
  assert (ledger (snd (update_downloaded_mv_in_file v st))
          = Some (unlines (lines ++ [(v ++ " ")%string]))) as E'.
  { unfold update_downloaded_mv_in_file. simpl. rewrite E.
    now rewrite unlines_app, string_pattern_line. }
  assert (Forall PyStr.no_line_break (lines ++ [(v ++ " ")%string])) as Hlines'.
  { apply Forall_app. split; [exact Hlines|]. constructor; [|constructor].
    apply no_line_break_app; [exact Hv|]. cbv. repeat split; discriminate. }
  split.
  - unfold ledger_content. rewrite E', E.
    rewrite (readlines_unlines _ Hlines'), (readlines_unlines _ Hlines), map_app.
    simpl. rewrite string_pattern_line. reflexivity.
  - intros w Hw.
    rewrite (contains_unlines _ _ w E' Hlines'), (contains_unlines _ _ w E Hlines).
    f_equal. rewrite existsb_app. simpl.
    destruct (String.eqb_spec (w ++ " ") (v ++ " ")) as [Heq|_].
    + apply append_inj_l in Heq. contradiction.
    + now rewrite !orb_false_r.
Qed.

Lemma append_leaves_other_versions_witness :
  readlines (ledger_content (snd (update_downloaded_mv_in_file "1.0.198" Sample.listed)))
  = ["1.0.166.1 " ++ PyStr.chr PyStr.LF; "1.0.198 " ++ PyStr.chr PyStr.LF;
     "1.0.198 " ++ PyStr.chr PyStr.LF] /\
  fst (has_model_already_been_downloaded "1.0.166.1"
         (snd (update_downloaded_mv_in_file "1.0.198" Sample.listed)))
  = Ok true.
Proof.
  destruct (append_leaves_other_versions Sample.listed ["1.0.166.1 "; "1.0.198 "]
              "1.0.198" eq_refl)
    as [Hlines Hother].
  - no_line_break_tac.
  - cbv. repeat split; discriminate.
  - split.
    + rewrite Hlines. reflexivity.
    + rewrite Hother; [reflexivity | discriminate].
Defined.

(** ** Endpoint Poller: the report *)

Lemma dict_set_fresh (d : list (string * string)) (key value : string) :
  ~ In key (map fst d) -> dict_set d key value = (d ++ [(key, value)])%list.
Proof.
  induction d as [|[k v] d IH]; simpl; [reflexivity|].
  intros H. destruct (String.eqb_spec k key) as [->|_]; [tauto|].
  rewrite IH; [reflexivity | tauto].
Qed.

Section Report.

Context {packaging : PackagingVersion}.
Variable env : environment.
Variable cfg : config.
Variable schema : json.

Lemma poll_step_report report names item st report' names' st' :
  poll_step env schema "modelsVersion" (report, names) item st
  = (Ok (report', names'), st') ->
  report' = match reported env schema item with
            | Some version => dict_set report (fst item) version
            | None => report
            end.
Proof.
  destruct item as [name url].
  unfold poll_step, bind, try_except, poll_endpoint, bind, http_get, lift, raise,
    is_json_valid, as_str, print_log_message, bind, lift, print, ret, reported.
  cbn [fst snd].
  destruct (requests_get env url) as [r|e]; cbn.
  - destruct (json_loads env (text r)) as [parsed|e]; cbn;
      [|destruct e; cbn; try discriminate; intros [= <- _ _]; reflexivity].
    destruct (jsonschema_validate env parsed schema) as [[]|e]; cbn.
    + destruct (json_getitem parsed "modelsVersion") as [value|e]; cbn.
      * destruct value; cbn; try discriminate. intros [= <- _ _]. reflexivity.
      * destruct e; cbn; try discriminate. intros [= <- _ _]. reflexivity.
    + destruct e; cbn; try discriminate; intros [= <- _ _]; reflexivity.
  - destruct e; cbn; try discriminate. intros [= <- _ _]. reflexivity.
Qed.

Lemma for_each_poll_report items :
  forall report names st report' names' st',
    NoDup (map fst items) ->
    (forall k, In k (map fst report) -> ~ In k (map fst items)) ->
    for_each (poll_step env schema "modelsVersion") items (report, names) st
    = (Ok (report', names'), st') ->
    report' = (report ++ flat_map (report_entry env schema) items)%list.
Proof.
  induction items as [|item items IH]; intros report names st report' names' st' Hnd Hk E.
  - cbn in E. unfold ret in E. injection E as <- _ _. simpl. now rewrite List.app_nil_r.
  - rewrite for_each_cons in E.
    destruct (poll_step env schema "modelsVersion" (report, names) item st)
      as [[[report1 names1]|e] st1] eqn:E1; [|discriminate E].
    apply poll_step_report in E1.
    simpl in Hnd. inversion Hnd as [|? ? Hfresh Hnd']; subst.
    apply IH in E; [|exact Hnd'|].
    + rewrite E. simpl. unfold report_entry at 2.
      destruct (reported env schema item) as [version|].
      * rewrite dict_set_fresh; [now rewrite <- List.app_assoc|].
        intros Hin. apply (Hk _ Hin). now left.
      * reflexivity.
    + intros k Hin. destruct (reported env schema item) as [version|].
      * rewrite dict_set_fresh, map_app in Hin
          by (intros Hin'; apply (Hk _ Hin'); now left).
        apply in_app_or in Hin as [Hin|[<-|[]]]; [|exact Hfresh].
        intros Hk'. apply (Hk _ Hin). now right.
      * intros Hk'. apply (Hk _ Hin). now right.
Qed.

End Report.

(** X6. When polling returns, and no body that the schema accepts carries an
    array as its field [modelsVersion], the report holds one entry for each
    endpoint whose body decoded, passed the schema and carried a string
    field [modelsVersion], and no other entry: the endpoint's name with the
    version normalised once, in the order of the configuration (the names of
    a configuration are distinct, being the keys of a dict). *)
Theorem report_is_the_accepted_replies {packaging : PackagingVersion}
    (env : environment) (cfg : config) (schema : json)
    (st st1 : state) (report : list (string * string)) (names : list string) :
  NoDup (map fst (urls_with_model_version cfg)) ->
  Forall (fun item => version_is_no_array env schema (snd item))
         (urls_with_model_version cfg) ->
  get_mv_from_urls env cfg schema "modelsVersion" st = (Ok (report, names), st1) ->
  report = flat_map (report_entry env schema) (urls_with_model_version cfg).
Proof.
  intros Hnd _ E.
  apply (for_each_poll_report env schema _ [] [] st report names st1 Hnd);
    [intros k [] | exact E].
Qed.

Lemma report_is_the_accepted_replies_witness :
  fst (get_mv_from_urls Sample.degraded Sample.cfg JNull "modelsVersion" initial_state)
  = Ok ([("dh2", "1.0.198")], ["dh1"; "dh2"]).
Proof.
  destruct (get_mv_from_urls Sample.degraded Sample.cfg JNull "modelsVersion" initial_state)
    as [[[report names]|e] st1] eqn:E.
  - rewrite (report_is_the_accepted_replies (packaging := Release)
               Sample.degraded Sample.cfg JNull initial_state st1 report names).
    + apply (f_equal fst) in E. vm_compute in E. injection E as _ <-. reflexivity.
    + repeat constructor; simpl; intuition discriminate.
    + apply Forall_cons; [|apply Forall_cons; [|apply Forall_nil]];
        intros r parsed elems Hr Hj _; vm_compute in Hr; injection Hr as <-;
        vm_compute in Hj; [discriminate Hj|].
      injection Hj as <-. discriminate.
    + exact E.
  - apply (f_equal fst) in E. vm_compute in E. discriminate E.
Defined.

(** ** Exceptions that end the polling *)

Lemma for_each_app {X S : Type} (body : S -> X -> M S) (a b : list X) :
  forall s st,
    for_each body (a ++ b) s st
    = match for_each body a s st with
      | (Ok s1, st1) => for_each body b s1 st1
      | (Raise e, st1) => (Raise e, st1)
      end.
Proof.
  induction a as [|x a IH]; intros s st; [reflexivity|].
  rewrite <- app_comm_cons, !for_each_cons.
  destruct (body s x st) as [[s1|e] st1]; [apply IH | reflexivity].
Qed.

Section PollingStops.

Context {packaging : PackagingVersion}.
Variable env : environment.
Variable cfg : config.
Variable schema : json.

Lemma poll_absorbed_prefix before st :
  Forall (fun item => poll_absorbed env schema (snd item)) before ->
  exists report names,
    for_each (poll_step env schema "modelsVersion") before ([], []) st
    = (Ok (report, names),
       mkState (ledger st) (folder st)
               (stdout st ++ map (poll_line env schema) before)
               (requests st ++ map poll_request before)).
Proof.
  intros Hbefore.
  destruct (get_mv_from_urls_absorbed env schema before Hbefore [] [] st)
    as (report & names & st1 & E & _ & Hout); [constructor|].
  exists report, names. rewrite E. f_equal.
  pose proof (for_each_adds poll_request _ (poll_step_adds env schema "modelsVersion")
                _ _ _ _ _ E) as Hreq.
  pose proof (preserves_for_each ledger _ before
                (poll_step_ledger env schema "modelsVersion") ([], []) st) as Hl.
  pose proof (preserves_for_each folder _ before
                (poll_step_folder env schema "modelsVersion") ([], []) st) as Hf.
  rewrite E in Hl, Hf. simpl in Hl, Hf.
  destruct st1; simpl in *. now subst.
Qed.

Lemma main_stops_in_polling before item after e st :
  urls_with_model_version cfg = (before ++ item :: after)%list ->
  Forall (fun item => poll_absorbed env schema (snd item)) before ->
  (forall report names st0,
     poll_step env schema "modelsVersion" (report, names) item st0
     = (Raise e, mkState (ledger st0) (folder st0) (stdout st0)
                         (requests st0 ++ [poll_request item]))) ->
  main env cfg schema st
  = (Raise e,
     mkState (ledger st) (folder st)
             (stdout st ++ map (poll_line env schema) before)
             (requests st ++ map poll_request (before ++ [item]))).
Proof.
  intros Hcfg Hbefore Hstep.
  rewrite main_run. unfold get_mv_from_urls. rewrite Hcfg, for_each_app.
  destruct (poll_absorbed_prefix before st Hbefore) as (report & names & ->).
  rewrite for_each_cons, Hstep. simpl.
  now rewrite map_app, List.app_assoc.
Qed.

Lemma poll_step_unreachable report names name url e st :
  requests_get env url = Raise e -> e <> JSONDecodeError ->
  poll_step env schema "modelsVersion" (report, names) (name, url) st
  = (Raise e, mkState (ledger st) (folder st) (stdout st)
                      (requests st ++ [poll_request (name, url)])).
Proof.
  intros Hr He.
  unfold poll_step, bind, try_except, poll_endpoint, bind, http_get. cbn.
  rewrite Hr. destruct e; try reflexivity. congruence.
Qed.

Lemma poll_step_validator_error report names name url r parsed e st :
  requests_get env url = Ok r ->
  json_loads env (text r) = Ok parsed ->
  jsonschema_validate env parsed schema = Raise e ->
  e <> ValidationError -> e <> JSONDecodeError ->
  poll_step env schema "modelsVersion" (report, names) (name, url) st
  = (Raise e, mkState (ledger st) (folder st) (stdout st)
                      (requests st ++ [poll_request (name, url)])).
Proof.
  intros Hr Hj Hv He1 He2.
  unfold poll_step, bind, try_except, poll_endpoint, bind, http_get, lift, is_json_valid.
  cbn. rewrite Hr, Hj. cbn. rewrite Hv.
  destruct e; try reflexivity; congruence.
Qed.

End PollingStops.

(** X7. A version-check request that raises (anything but a JSON decode
    error) ends the run with that exception, wherever the endpoint stands
    among endpoints whose replies are absorbed: the endpoints after it are
    not asked, no package is requested, nothing is printed for it, and the
    ledger and the output folder are as they were (a missing ledger is not
    created). *)
Theorem unreachable_version_endpoint_ends_run {packaging : PackagingVersion}
    (env : environment) (cfg : config) (schema : json) (st : state)
    (before after : list (string * string)) (name url : string) (e : exn) :
  urls_with_model_version cfg = (before ++ (name, url) :: after)%list ->
  Forall (fun item => poll_absorbed env schema (snd item)) before ->
  requests_get env url = Raise e ->
  e <> JSONDecodeError ->
  main env cfg schema st
  = (Raise e,
     mkState (ledger st) (folder st)
             (stdout st ++ map (poll_line env schema) before)
             (requests st ++ map poll_request (before ++ [(name, url)]))).
Proof.
  intros Hcfg Hbefore Hr He.
  apply (main_stops_in_polling env cfg schema before (name, url) after e st Hcfg Hbefore).
  intros report names st0. now apply poll_step_unreachable.
Qed.

Lemma unreachable_version_endpoint_ends_run_witness :
  main (packaging := Release) Scenario.second_unreachable Sample.cfg JNull initial_state
  = (Raise ConnectionError,
     mkState None []
       [ {| line_type := Warning; line_url_name := Some "dh1";
            line_text := MsgUrl "JSON did not loaded from URL: " (Some "https://dh1/ping") |} ]
       [ {| req_url := "https://dh1/ping"; req_stream := false |};
         {| req_url := "https://dh2/ping2"; req_stream := false |} ]).
Proof.
  apply (unreachable_version_endpoint_ends_run (packaging := Release)
           Scenario.second_unreachable Sample.cfg JNull initial_state
           [("dh1", "https://dh1/ping")] [] "dh2" "https://dh2/ping2" ConnectionError).
  - reflexivity.
  - apply Forall_cons; [|apply Forall_nil].
    exists (Sample.reply "<html>"). split; reflexivity.
  - reflexivity.
  - discriminate.
Defined.

(** X8. [is_json_valid] absorbs only a validation error: when the validator
    raises anything else on a decoded body (a schema it rejects, say), the
    run ends with that exception at that endpoint, as for a request that
    raises, and not with a warning. *)
Theorem validator_error_ends_run {packaging : PackagingVersion}
    (env : environment) (cfg : config) (schema : json) (st : state)
    (before after : list (string * string)) (name url : string)
    (r : response) (parsed : json) (e : exn) :
  urls_with_model_version cfg = (before ++ (name, url) :: after)%list ->
  Forall (fun item => poll_absorbed env schema (snd item)) before ->
  requests_get env url = Ok r ->
  json_loads env (text r) = Ok parsed ->
  jsonschema_validate env parsed schema = Raise e ->
  e <> ValidationError -> e <> JSONDecodeError ->
  is_json_valid env parsed schema = Raise e /\
  main env cfg schema st
  = (Raise e,
     mkState (ledger st) (folder st)
             (stdout st ++ map (poll_line env schema) before)
             (requests st ++ map poll_request (before ++ [(name, url)]))).
Proof.
  intros Hcfg Hbefore Hr Hj Hv He1 He2. split.
  - unfold is_json_valid. rewrite Hv. destruct e; try reflexivity. congruence.
  - apply (main_stops_in_polling env cfg schema before (name, url) after e st Hcfg Hbefore).
    intros report names st0. now apply (poll_step_validator_error env schema _ _ _ _ r parsed).
Qed.

Lemma validator_error_ends_run_witness :
  fst (main (packaging := Release) Scenario.broken_schema Sample.cfg JNull initial_state)
  = Raise SchemaError /\
  requests (snd (main (packaging := Release) Scenario.broken_schema Sample.cfg JNull
                   initial_state))
  = [ {| req_url := "https://dh1/ping"; req_stream := false |} ].
Proof.
  destruct (validator_error_ends_run (packaging := Release)
              Scenario.broken_schema Sample.cfg JNull initial_state
              [] [("dh2", "https://dh2/ping2")] "dh1" "https://dh1/ping"
              (Sample.reply (Sample.version_body "1.0.166.1"))
              (JObject [("modelsVersion", JString "1.0.166.1")]) SchemaError)
    as [_ Hmain].
  - reflexivity.
  - apply Forall_nil.
  - reflexivity.
  - reflexivity.
  - reflexivity.
  - discriminate.
  - discriminate.
  - rewrite Hmain. split; reflexivity.
Defined.

(** ** Package Fetcher: requests, names of files, exceptions *)

Section FetcherRuns.

Context {packaging : PackagingVersion}.
Variable env : environment.
Variable cfg : config.
Variable schema : json.

Lemma download_step_adds v code item :
  adds [package_request v item] (download_step env cfg v code item).
Proof.
  destruct item as [name url]. unfold download_step.
  apply adds_bind_l.
  - apply adds_try.
    + apply adds_bind_l; [|intros u; frame].
      unfold fetch_package. apply adds_bind_l; [apply adds_http_get|].
      intros r. frame.
    + intros e h E. destruct e; try discriminate E. injection E as <-. frame.
  - intros r. frame.
Qed.






End FetcherRuns.





(** ** Package Fetcher: the name of the artifact *)







(** X12. Whenever the fetcher returns, whatever the status, it has asked
    every package endpoint once, in the order of the configuration, with a
    streamed request for the endpoint's path closed by a slash and followed
    by the version: an error status at one endpoint does not keep it from
    asking the next. It has printed one line for each of them. *)
Theorem fetcher_asks_every_endpoint
    (env : environment) (cfg : config) (v : string) (st st' : state) (code : nat) :
  download_nuurls_with_model_package env cfg cfg v st = (Ok code, st') ->
  requests st'
  = (requests st ++ map (package_request v) (urls_with_model_package cfg))%list /\
  List.length (stdout st')
  = (List.length (stdout st) + List.length (urls_with_model_package cfg))%nat.
Proof.
  intros E. split.
  - exact (for_each_adds (package_request v) _ (download_step_adds env cfg v) _ _ _ _ _ E).
  - unfold download_nuurls_with_model_package in E.
    revert E. generalize 0 at 1. revert st.
    induction (urls_with_model_package cfg) as [|item items IH]; intros st c E.
    + cbn in E. unfold ret in E. injection E as _ <-. simpl. lia.
    + rewrite for_each_cons in E.
      destruct (download_step env cfg v c item st) as [[c1|e] st1] eqn:E1;
        [|discriminate E].
      apply IH in E. rewrite E. simpl List.length.
      assert (List.length (stdout st1) = S (List.length (stdout st))) as ->; [|lia].
      clear - E1. destruct item as [name url].
      pose proof (fetch_package_stdout env cfg (add_closing_slash url ++ v) st) as Hout.
      unfold download_step, bind, try_except, print_log_message, bind, lift, print, ret
        in E1.
      destruct (fetch_package env cfg (add_closing_slash url ++ v) st) as [[u|e] st0];
        simpl in Hout; cbn in E1.
      * injection E1 as _ <-. simpl. rewrite List.length_app, Hout. simpl. lia.
      * destruct e; cbn in E1; try discriminate E1.
        injection E1 as _ <-. simpl. rewrite List.length_app, Hout. simpl. lia.
Qed.

Lemma fetcher_asks_every_endpoint_witness :
  requests (snd (download_nuurls_with_model_package Sample.partial Sample.cfg Sample.cfg
                   "1.0.198" initial_state))
  = [ {| req_url := "http://proget/Models/1.0.198"; req_stream := true |};
      {| req_url := "http://mirror/Models/1.0.198"; req_stream := true |} ].
Proof.
  destruct (download_nuurls_with_model_package Sample.partial Sample.cfg Sample.cfg
              "1.0.198" initial_state) as [[code|e] st'] eqn:E.
  - destruct (fetcher_asks_every_endpoint _ _ _ _ _ _ E) as [Hreq _].
    simpl. rewrite Hreq. reflexivity.
  - apply (f_equal fst) in E. vm_compute in E. discriminate E.
Defined.

(** ** The orchestrator: when the ledger is created, and the next run *)

(** X13. The ledger file is created as soon as a version is resolved, before
    the membership test and whatever becomes of the fetch: after a run whose
    polling returned a report that is not empty and whose versions the
    library accepted, the file is there, also when the fetch raised. A run
    that ends earlier (polling raised, the report was empty, or a version
    was not accepted) leaves the ledger as it was, missing if it was. *)
Theorem ledger_is_created_once_resolved {packaging : PackagingVersion}
    (env : environment) (cfg : config) (schema : json) (st : state) :
  (forall st1 models names v,
     get_mv_from_urls env cfg schema "modelsVersion" st = (Ok (models, names), st1) ->
     models <> [] ->
     determine_senior_version models = Ok v ->
     ledger (snd (main env cfg schema st)) <> None) /\
  (forall st1 e,
     get_mv_from_urls env cfg schema "modelsVersion" st = (Raise e, st1) ->
     ledger (snd (main env cfg schema st)) = ledger st) /\
  (forall st1 names,
     get_mv_from_urls env cfg schema "modelsVersion" st = (Ok ([], names), st1) ->
     ledger (snd (main env cfg schema st)) = ledger st) /\
  (forall st1 models names e,
     get_mv_from_urls env cfg schema "modelsVersion" st = (Ok (models, names), st1) ->
     determine_senior_version models = Raise e ->
     ledger (snd (main env cfg schema st)) = ledger st).
Proof.
  pose proof (get_mv_from_urls_ledger env cfg schema "modelsVersion" st) as Hl.
  split; [|split; [|split]].
  - intros st1 models names v E Hm Hv. rewrite main_run, E.
    destruct models as [|m models]; [congruence|]. rewrite Hv.
    pose proof (initialised_exists st1) as Hex.
    destruct (contains v (initialised st1)); [exact Hex|].
    pose proof (download_ledger_exists env cfg v (initialised st1) Hex) as Hd.
    unfold ledger_exists in Hd.
    destruct (download_nuurls_with_model_package env cfg cfg v (initialised st1))
      as [[[|code]|e] st3]; simpl in *; congruence.
  - intros st1 e E. rewrite main_run, E. rewrite E in Hl. exact Hl.
  - intros st1 names E. rewrite main_run, E. rewrite E in Hl. exact Hl.
  - intros st1 models names e E Hv. rewrite main_run, E. rewrite E in Hl.
    destruct models as [|m models]; [exact Hl|]. rewrite Hv. exact Hl.
Qed.

Lemma ledger_is_created_once_resolved_witness :
  fst (main (packaging := Release) Sample.package_offline Sample.cfg JNull initial_state)
  = Raise ConnectionError /\
  ledger (snd (main (packaging := Release) Sample.package_offline Sample.cfg JNull
                 initial_state)) <> None /\
  ledger (snd (main (packaging := Release) Sample.offline Sample.cfg JNull initial_state))
  = None.
Proof.
  destruct (ledger_is_created_once_resolved (packaging := Release)
              Sample.package_offline Sample.cfg JNull initial_state)
    as (Hcreated & _).
  destruct (ledger_is_created_once_resolved (packaging := Release)
              Sample.offline Sample.cfg JNull initial_state)
    as (_ & Hkept & _).
  split; [vm_compute; reflexivity|]. split.
  - apply (Hcreated
             (snd (get_mv_from_urls Sample.package_offline Sample.cfg JNull
                     "modelsVersion" initial_state))
             [("dh1", "1.0.166.1"); ("dh2", "1.0.198")] ["dh1"; "dh2"] "1.0.198").
    + vm_compute. reflexivity.
    + discriminate.
    + vm_compute. reflexivity.
  - apply (Hkept
             (snd (get_mv_from_urls Sample.offline Sample.cfg JNull "modelsVersion"
                     initial_state))
             ConnectionError).
    vm_compute. reflexivity.
Defined.



(** ** Endpoint Poller: what it asks and what it leaves alone *)

Lemma poll_endpoint_stdout {packaging : PackagingVersion} env schema field mv name url :
  preserves stdout (poll_endpoint env schema field mv name url).
Proof. unfold poll_endpoint. frame. Qed.

Lemma poll_step_prints_one {packaging : PackagingVersion} env schema field acc item st
    acc' st' :
  poll_step env schema field acc item st = (Ok acc', st') ->
  List.length (stdout st') = S (List.length (stdout st)).
Proof.
  destruct acc as [mv names], item as [name url]. intros E.
  pose proof (poll_endpoint_stdout env schema field mv name url st) as Hout.
  unfold poll_step, bind, try_except, print_log_message, bind, lift, print, ret in E.
  destruct (poll_endpoint env schema field mv name url st) as [[[mv1 [t n]]|e] st0];
    simpl in Hout; cbn in E.
  - destruct (nth_error _ n); cbn in E; [|discriminate E].
    injection E as _ <-. simpl. rewrite List.length_app, Hout. simpl. lia.
  - destruct e; cbn in E; try discriminate E.
    injection E as _ <-. simpl. rewrite List.length_app, Hout. simpl. lia.
Qed.

(** X15. Whenever polling returns, it has asked every version-check endpoint
    once, in the order of the configuration and without streaming, whatever
    the earlier ones answered; it returns the names of all of them and has
    printed one line for each; the ledger and the output folder are as they
    were. *)
Theorem polling_asks_every_endpoint {packaging : PackagingVersion}
    (env : environment) (cfg : config) (schema : json)
    (st st1 : state) (report : list (string * string)) (names : list string) :
  get_mv_from_urls env cfg schema "modelsVersion" st = (Ok (report, names), st1) ->
  names = map fst (urls_with_model_version cfg) /\
  requests st1 = (requests st ++ map poll_request (urls_with_model_version cfg))%list /\
  List.length (stdout st1)
  = (List.length (stdout st) + List.length (urls_with_model_version cfg))%nat /\
  ledger st1 = ledger st /\
  folder st1 = folder st.
Proof.
  intros E.
  destruct (get_mv_from_urls_returns env cfg schema _ _ _ _ _ E) as (Hn & Hr & Hl & Hf).
  split; [exact Hn|]. split; [exact Hr|]. split; [|now split].
  unfold get_mv_from_urls in E. clear - E. revert E.
  generalize (@nil (string * string), @nil string). revert st.
  induction (urls_with_model_version cfg) as [|item items IH]; intros st acc E.
  - cbn in E. unfold ret in E. injection E as _ <-. simpl. lia.
  - rewrite for_each_cons in E.
    destruct (poll_step env schema "modelsVersion" acc item st) as [[acc1|e] st0] eqn:E1;
      [|discriminate E].
    apply poll_step_prints_one in E1. apply IH in E. rewrite E, E1. simpl. lia.
Qed.

Lemma polling_asks_every_endpoint_witness :
  requests (snd (get_mv_from_urls Sample.garbled Sample.cfg JNull "modelsVersion"
                   initial_state))
  = [ {| req_url := "https://dh1/ping"; req_stream := false |};
      {| req_url := "https://dh2/ping2"; req_stream := false |} ] /\
  List.length (stdout (snd (get_mv_from_urls Sample.garbled Sample.cfg JNull
                              "modelsVersion" initial_state))) = 2.
Proof.
  destruct (get_mv_from_urls Sample.garbled Sample.cfg JNull "modelsVersion" initial_state)
    as [[[report names]|e] st1] eqn:E.
  - destruct (polling_asks_every_endpoint (packaging := Release) _ _ _ _ _ _ _ E)
      as (_ & Hr & Hlen & _).
    simpl snd. rewrite Hr, Hlen. split; reflexivity.
  - apply (f_equal fst) in E. vm_compute in E. discriminate E.
Defined.


